(** * Daily IPO monitor: the filter, the report and the run, checked against
    their specification.

    The development embeds [ipo_monitor.py] (and the mock data of
    [test_ipo_monitor.py]) shallowly:

    - a JSON value decoded by [response.json()] is a [pyval]; an event record
      (a Python [dict] with string keys) is a [gmap string pyval];
    - a Python exception is a constructor of [exn], and code that can raise
      returns a [result];
    - console output, the HTTP request and the SMTP session are entries of a
      trace that [main] builds from a [world] describing what the outside
      answers;
    - a [world] holds a response body of the documented shape, an object
      with an array of objects; [Wire] holds the fetch, the filter and [main]
      on any response, and the two agree on the documented shape. *)

From Stdlib Require Import ZArith String Ascii List Lia Bool.
From Stdlib Require Import Floats DecimalString.
From stdpp Require Import gmap strings list fin_maps.

Set Warnings "-register-all".
#[local] Open Scope string_scope.
#[local] Open Scope list_scope.
#[local] Open Scope Z_scope.

(** ** Python values and exceptions *)

(** What [json.loads] produces: [None], [bool], [int], [float] (an IEEE
    binary64, as Rocq's primitive floats), [str], [list] and [dict]. *)
Inductive pyval : Type :=
| PNone
| PBool (b : bool)
| PInt (n : Z)
| PFloat (f : float)
| PStr (s : string)
| PList (xs : list pyval)
| PDict (d : gmap string pyval).

(** An event record, raw or qualifying: a [dict] keyed by strings. *)
Abbreviation dict := (gmap string pyval).

(** The exceptions the stages can raise or catch; [AttributeError] is what
    a method call on an object without that method raises. *)
Inductive exn : Type :=
| TypeError
| ValueError
| KeyError (key : string)
| AttributeError.

Inductive result (A : Type) : Type :=
| Ok (a : A)
| Raise (e : exn).
Arguments Ok {A} a.
Arguments Raise {A} e.

(** Sequencing stops at the first exception; [x ← r; k] is stdpp's notation
    for [mbind]. *)
#[export] Instance result_ret : MRet result := fun A a => Ok a.
#[export] Instance result_bind : MBind result := fun A B k r =>
  match r with
  | Ok a => k a
  | Raise e => Raise e
  end.

Definition returns {A : Type} (r : result A) : Prop := exists a, r = Ok a.

(** ** Built-in operations used by the script *)

(** [bool(v)]: the truth value of an object. A float is false exactly when it
    is a zero, [0.0] or [-0.0] (so [nan] is true); a string or a container
    when it is empty. *)
Definition py_truthy (v : pyval) : bool :=
  match v with
  | PNone => false
  | PBool b => b
  | PInt n => negb (n =? 0)
  | PFloat f => match Prim2SF f with S754_zero _ => false | _ => true end
  | PStr s => negb (String.eqb s "")
  | PList xs => match xs with [] => false | _ => true end
  | PDict d => negb (bool_decide (d = ∅))
  end.

(** A float against an int. Python compares the two numbers exactly: a finite
    float is [±m·2^e], set against [n] over the integers; [nan] is unordered. *)
Definition float_compare_int (f : float) (n : Z) : option comparison :=
  match Prim2SF f with
  | S754_nan => None
  | S754_infinity s => Some (if s then Lt else Gt)
  | S754_zero _ => Some (0 ?= n)
  | S754_finite s m e =>
      let v := if s then Z.neg m else Z.pos m in
      Some (if 0 <=? e then v * 2 ^ e ?= n else v ?= n * 2 ^ (- e))
  end.

(** [f >= n]: false as soon as [f] is [nan]. *)
Definition float_ge_int (f : float) (n : Z) : bool :=
  match float_compare_int f n with
  | Some Eq | Some Gt => true
  | Some Lt | None => false
  end.

(** [v >= n] where [n] is an int. [bool] is a subclass of [int]; [None],
    [str], [list] and [dict] do not order against an int. *)
Definition py_ge_int (v : pyval) (n : Z) : result bool :=
  match v with
  | PInt z => Ok (n <=? z)
  | PBool b => Ok (n <=? Z.b2z b)
  | PFloat f => Ok (float_ge_int f n)
  | PNone | PStr _ | PList _ | PDict _ => Raise TypeError
  end.

(** [d.get(key, default)]. *)
Definition dict_get (d : dict) (key : string) (dflt : pyval) : pyval :=
  default dflt (d !! key).

(** [d[key]]. *)
Definition dict_getitem (d : dict) (key : string) : result pyval :=
  match d !! key with
  | Some v => Ok v
  | None => Raise (KeyError key)
  end.

(** ** The filter *)

Definition MIN_OFFER_AMOUNT : Z := 200000000.

(** The body of [for ipo in ipo_list], with [qualifying_ipos] the list
    appended to. [total_value and total_value >= MIN_OFFER_AMOUNT] evaluates
    the comparison only when [total_value] is true. *)
Fixpoint filter_loop (ipo_list qualifying_ipos : list dict) : result (list dict) :=
  match ipo_list with
  | [] => Ok qualifying_ipos
  | ipo :: rest =>
      let total_value := dict_get ipo "totalSharesValue" (PInt 0) in
      cond ← (if py_truthy total_value
              then py_ge_int total_value MIN_OFFER_AMOUNT
              else Ok false);
      if (cond : bool)
      then filter_loop rest
             (qualifying_ipos ++
              [ list_to_map
                  [ ("symbol", dict_get ipo "symbol" (PStr "N/A"));
                    ("name", dict_get ipo "name" (PStr "N/A"));
                    ("exchange", dict_get ipo "exchange" (PStr "N/A"));
                    ("price", dict_get ipo "price" (PStr "N/A"));
                    ("shares", dict_get ipo "numberOfShares" (PStr "N/A"));
                    ("offer_amount", total_value);
                    ("status", dict_get ipo "status" (PStr "N/A"));
                    ("date", dict_get ipo "date" (PStr "N/A")) ] ])
      else filter_loop rest qualifying_ipos
  end.

Definition filter_large_ipos (ipo_list : list dict) : result (list dict) :=
  filter_loop ipo_list [].

(** [MOCK_IPO_DATA] of the test script. *)
Definition MOCK_IPO_DATA : list dict :=
  [ list_to_map
      [ ("symbol", PStr "MEVOU");
        ("name", PStr "M Evo Global Acquisition Corp II");
        ("exchange", PStr "NASDAQ Global");
        ("price", PStr "10.00");
        ("numberOfShares", PInt 27000000);
        ("totalSharesValue", PInt 270000000);
        ("status", PStr "expected");
        ("date", PStr "2026-01-30") ];
    list_to_map
      [ ("symbol", PStr "MUZEU");
        ("name", PStr "Muzero Acquisition Corp");
        ("exchange", PStr "NASDAQ Global");
        ("price", PStr "10.00");
        ("numberOfShares", PInt 17500000);
        ("totalSharesValue", PInt 175000000);
        ("status", PStr "expected");
        ("date", PStr "2026-01-30") ];
    list_to_map
      [ ("symbol", PStr "TESTIPO");
        ("name", PStr "Test Large IPO Company");
        ("exchange", PStr "NYSE");
        ("price", PStr "25.00");
        ("numberOfShares", PInt 20000000);
        ("totalSharesValue", PInt 500000000);
        ("status", PStr "priced");
        ("date", PStr "2026-01-30") ] ].

(** ** Text *)

(** The double quote and the line break, which the templates below use. *)
Definition dq : string := String (ascii_of_nat 34) "".
Definition nl : string := String (ascii_of_nat 10) "".

(** [str(n)] for an int. *)
Definition int_str (n : Z) : string := NilZero.string_of_int (Z.to_int n).

(** Digits grouped by three, least significant first. *)
Fixpoint group3 (ds : list ascii) : list ascii :=
  match ds with
  | a :: b :: c :: ((_ :: _) as rest) => a :: b :: c :: ","%char :: group3 rest
  | _ => ds
  end.

(** [format(n, ',')] for an int: the sign, then the decimal digits with a
    comma every three places from the right. *)
Definition int_format_comma (n : Z) : string :=
  (if n <? 0 then "-" else "") +:+
  string_of_list_ascii
    (rev (group3 (rev (list_ascii_of_string (int_str (Z.abs n)))))).

(** [s * n]. *)
Fixpoint str_repeat (s : string) (n : nat) : string :=
  match n with
  | O => ""
  | S n' => s +:+ str_repeat s n'
  end.

(** [sep.join(items)]: every item has to be a [str]. *)
Fixpoint str_join (sep : string) (items : list pyval) : result string :=
  match items with
  | [] => Ok ""
  | PStr s :: rest =>
      match rest with
      | [] => Ok s
      | _ => tail ← str_join sep rest; Ok (s +:+ sep +:+ tail)
      end
  | _ :: _ => Raise TypeError
  end.

(** ** The clock *)

(** A reading of [datetime.now()]. A [datetime] has its month from 1 to 12. *)
Inductive month_of_year : Type :=
| January | February | March | April | May | June
| July | August | September | October | November | December.

Record datetime : Type := {
  year : Z;
  month : month_of_year;
  day : Z;
  hour : Z;
  minute : Z;
  second : Z
}.

(** [%B]: the name of the month, in the C locale the interpreter starts in. *)
Definition month_name (m : month_of_year) : string :=
  match m with
  | January => "January" | February => "February" | March => "March"
  | April => "April" | May => "May" | June => "June"
  | July => "July" | August => "August" | September => "September"
  | October => "October" | November => "November" | December => "December"
  end.

Definition month_number (m : month_of_year) : Z :=
  match m with
  | January => 1 | February => 2 | March => 3 | April => 4 | May => 5
  | June => 6 | July => 7 | August => 8 | September => 9 | October => 10
  | November => 11 | December => 12
  end.

(** [%m], [%d], [%H], [%M] and [%S]: a number on two digits. *)
Definition two_digits (n : Z) : string :=
  if n <? 10 then "0" +:+ int_str n else int_str n.

(** [strftime("%B %d, %Y")]. *)
Definition strftime_long (t : datetime) : string :=
  month_name (month t) +:+ " " +:+ two_digits (day t) +:+ ", " +:+ int_str (year t).

(** [strftime("%Y-%m-%d")]. *)
Definition strftime_date (t : datetime) : string :=
  int_str (year t) +:+ "-" +:+ two_digits (month_number (month t)) +:+ "-" +:+
  two_digits (day t).

(** [strftime("%Y-%m-%d %H:%M:%S")]. *)
Definition strftime_stamp (t : datetime) : string :=
  strftime_date t +:+ " " +:+ two_digits (hour t) +:+ ":" +:+
  two_digits (minute t) +:+ ":" +:+ two_digits (second t).

(** What CPython prints for a float and for a container is the interpreter's
    own code (shortest round-trip digits, [repr] of the elements); the
    development takes these renderings as given. *)
Class PyRuntime : Type := {
  float_str : float -> string;
  float_format_comma : float -> string;
  container_str : pyval -> string
}.

Section Formatting.
Context {RT : PyRuntime}.

(** [f"{v}"], that is [format(v, "")], which is [str(v)] for these types. *)
Definition py_str (v : pyval) : string :=
  match v with
  | PNone => "None"
  | PBool b => if b then "True" else "False"
  | PInt n => int_str n
  | PFloat f => float_str f
  | PStr s => s
  | PList _ | PDict _ => container_str v
  end.

(** [f"{v:,}"], that is [format(v, ",")]: numbers take the thousands
    separator ([bool] formats as the int it is); [str] rejects it with
    [ValueError]; [None] and the containers accept no format string at all. *)
Definition py_format_comma (v : pyval) : result string :=
  match v with
  | PInt n => Ok (int_format_comma n)
  | PBool b => Ok (int_format_comma (Z.b2z b))
  | PFloat f => Ok (float_format_comma f)
  | PStr _ => Raise ValueError
  | PNone | PList _ | PDict _ => Raise TypeError
  end.

(** ** The report *)

Definition td : string :=
  "<td style=" +:+ dq +:+ "padding: 8px; border: 1px solid #ddd;" +:+ dq +:+ ">".
Definition th : string :=
  "<th style=" +:+ dq +:+ "padding: 10px; border: 1px solid #ddd;" +:+ dq +:+ ">".

(** The f-string of one table row, as a function of the texts of its
    replacement fields. *)
Definition row_template
    (symbol name exchange price shares offer_amount status : string) : string :=
  nl +:+
  "        <tr>" +:+ nl +:+
  "            " +:+ td +:+ "<strong>" +:+ symbol +:+ "</strong></td>" +:+ nl +:+
  "            " +:+ td +:+ name +:+ "</td>" +:+ nl +:+
  "            " +:+ td +:+ exchange +:+ "</td>" +:+ nl +:+
  "            " +:+ td +:+ "$" +:+ price +:+ "</td>" +:+ nl +:+
  "            " +:+ td +:+ shares +:+ "</td>" +:+ nl +:+
  "            " +:+ td +:+ "<strong>$" +:+ offer_amount +:+ "</strong></td>" +:+ nl +:+
  "            " +:+ td +:+ status +:+ "</td>" +:+ nl +:+
  "        </tr>" +:+ nl.

(** The f-string of the report when nothing qualifies. *)
Definition empty_template (today threshold : string) : string :=
  nl +:+
  "<html>" +:+ nl +:+
  "<body>" +:+ nl +:+
  "<h2>Daily IPO Monitor - " +:+ today +:+ "</h2>" +:+ nl +:+
  "<p>No U.S. IPOs with offer amounts above $" +:+ threshold +:+ " found for today.</p>" +:+ nl +:+
  "<p><em>This is an automated message from your IPO monitoring system.</em></p>" +:+ nl +:+
  "</body>" +:+ nl +:+
  "</html>" +:+ nl.

(** The f-string of the report with a table. *)
Definition populated_template (today count threshold rows summary : string) : string :=
  nl +:+
  "<html>" +:+ nl +:+
  "<body>" +:+ nl +:+
  "<h2>Daily IPO Monitor - " +:+ today +:+ "</h2>" +:+ nl +:+
  "<p>Found <strong>" +:+ count +:+ "</strong> U.S. IPO(s) with offer amounts above $" +:+ threshold +:+ ":</p>" +:+ nl +:+
  nl +:+
  "<table style=" +:+ dq +:+ "border-collapse: collapse; width: 100%; margin-top: 20px;" +:+ dq +:+ ">" +:+ nl +:+
  "    <thead>" +:+ nl +:+
  "        <tr style=" +:+ dq +:+ "background-color: #4CAF50; color: white;" +:+ dq +:+ ">" +:+ nl +:+
  "            " +:+ th +:+ "Ticker</th>" +:+ nl +:+
  "            " +:+ th +:+ "Company Name</th>" +:+ nl +:+
  "            " +:+ th +:+ "Exchange</th>" +:+ nl +:+
  "            " +:+ th +:+ "Price</th>" +:+ nl +:+
  "            " +:+ th +:+ "Shares</th>" +:+ nl +:+
  "            " +:+ th +:+ "Offer Amount</th>" +:+ nl +:+
  "            " +:+ th +:+ "Status</th>" +:+ nl +:+
  "        </tr>" +:+ nl +:+
  "    </thead>" +:+ nl +:+
  "    <tbody>" +:+ nl +:+
  rows +:+ nl +:+
  "    </tbody>" +:+ nl +:+
  "</table>" +:+ nl +:+
  nl +:+
  "<p style=" +:+ dq +:+ "margin-top: 20px;" +:+ dq +:+ "><strong>Summary of Tickers:</strong> " +:+ summary +:+ "</p>" +:+ nl +:+
  nl +:+
  "<p style=" +:+ dq +:+ "margin-top: 30px; color: #666;" +:+ dq +:+ "><em>This is an automated message from your IPO monitoring system.</em></p>" +:+ nl +:+
  "</body>" +:+ nl +:+
  "</html>" +:+ nl.

(** The [for ipo in ipos: rows += ...] loop. The replacement fields of an
    f-string are evaluated and formatted from left to right. *)
Fixpoint rows_loop (ipos : list dict) (rows : string) : result string :=
  match ipos with
  | [] => Ok rows
  | ipo :: rest =>
      symbol ← dict_getitem ipo "symbol";
      name ← dict_getitem ipo "name";
      exchange ← dict_getitem ipo "exchange";
      price ← dict_getitem ipo "price";
      shares ← dict_getitem ipo "shares";
      shares_text ← py_format_comma shares;
      offer_amount ← dict_getitem ipo "offer_amount";
      offer_amount_text ← py_format_comma offer_amount;
      status ← dict_getitem ipo "status";
      rows_loop rest
        (rows +:+
         row_template (py_str symbol) (py_str name) (py_str exchange)
           (py_str price) shares_text offer_amount_text (py_str status))
  end.

(** [[ipo['symbol'] for ipo in ipos]]. *)
Fixpoint symbols_of (ipos : list dict) : result (list pyval) :=
  match ipos with
  | [] => Ok []
  | ipo :: rest =>
      symbol ← dict_getitem ipo "symbol";
      symbols ← symbols_of rest;
      Ok (symbol :: symbols)
  end.

(** [format_email_body], with [now] what [datetime.now()] returns in it. *)
Definition format_email_body (now : datetime) (ipos : list dict) : result string :=
  let today := strftime_long now in
  match ipos with
  | [] => Ok (empty_template today (int_format_comma MIN_OFFER_AMOUNT))
  | _ :: _ =>
      rows ← rows_loop ipos "";
      symbols ← symbols_of ipos;
      summary ← str_join ", " symbols;
      Ok (populated_template today (int_str (Z.of_nat (length ipos)))
            (int_format_comma MIN_OFFER_AMOUNT) rows summary)
  end.

End Formatting.

(** ** The outside world and the trace of a run *)

(** The failures [requests] reports, all subclasses of [RequestException],
    each with the text [str(e)] gives. *)
Inductive request_exception : Type :=
| Timeout (msg : string)
| ConnectionError (msg : string)
| HTTPError (msg : string).

Definition request_exception_str (e : request_exception) : string :=
  match e with
  | Timeout msg | ConnectionError msg | HTTPError msg => msg
  end.

(** A response that arrived. Its body is taken in the shape the calendar API
    documents: a JSON object whose [ipoCalendar] entry, when present, is an
    array of objects. *)
Record response : Type := {
  status_code : Z;
  reason : string;
  url : string;
  ipoCalendar : option (list dict)
}.

(** How the SMTP session ends: the message is accepted, [login] raises
    [SMTPAuthenticationError], or anything else goes wrong (with [str(e)]). *)
Inductive smtp_outcome : Type :=
| Delivered
| AuthenticationFailed
| SendFailed (msg : string).

(** What one run meets: the environment variables, what the clock gives at
    each [datetime.now()] (in the banner, in the fetch, in the subject and in
    the body), the answer to the HTTP request and the fate of the SMTP
    session. *)
Record world : Type := {
  FINNHUB_API_KEY : option string;
  EMAIL_ADDRESS : option string;
  now_banner : datetime;
  now_fetch : datetime;
  now_subject : datetime;
  now_body : datetime;
  http : request_exception + response;
  smtp : smtp_outcome
}.

(** What a run does to the outside, in order. *)
Inductive effect : Type :=
| Print (text : string)
| HttpGet (target from to : string) (token : option string) (timeout : Z)
| SmtpSession (host : string) (port : Z) (sender : option string)
    (subject body : string).

(** A computation that leaves a trace and returns or raises; the trace up to
    an exception is kept. *)
Definition io (A : Type) : Type := list effect * result A.

#[export] Instance io_ret : MRet io := fun A a => ([], Ok a).
#[export] Instance io_bind : MBind io := fun A B k m =>
  match m with
  | (t, Ok a) => let '(t', r) := k a in (t ++ t', r)
  | (t, Raise e) => (t, Raise e)
  end.

Definition print (text : string) : io unit := ([Print text], Ok tt).
Definition perform (e : effect) : io unit := ([e], Ok tt).
Definition lift {A : Type} (r : result A) : io A := ([], r).

(** [f"{v}"] for a variable read with [os.getenv]. *)
Definition env_str (v : option string) : string := default "None" v.

Definition SMTP_SERVER : string := "smtp.gmail.com".
Definition SMTP_PORT : Z := 587.

(** [Response.raise_for_status] of [requests]: an [HTTPError] for a status
    from 400 to 599, nothing otherwise. *)
Definition raise_for_status (r : response) : option request_exception :=
  if (400 <=? status_code r) && (status_code r <? 500)
  then Some (HTTPError (int_str (status_code r) +:+ " Client Error: " +:+
                        reason r +:+ " for url: " +:+ url r))
  else if (500 <=? status_code r) && (status_code r <? 600)
  then Some (HTTPError (int_str (status_code r) +:+ " Server Error: " +:+
                        reason r +:+ " for url: " +:+ url r))
  else None.

Section Run.
Context {RT : PyRuntime}.

(** The fetch on a response of the documented shape; [Wire.get_todays_ipos]
    below follows it on any response. *)
Definition get_todays_ipos (w : world) : io (list dict) :=
  let today := strftime_date (now_fetch w) in
  perform (HttpGet "https://finnhub.io/api/v1/calendar/ipo" today today
             (FINNHUB_API_KEY w) 30);;
  match http w with
  | inl e =>
      print ("Error fetching IPO data: " +:+ request_exception_str e);;
      mret []
  | inr resp =>
      match raise_for_status resp with
      | Some e =>
          print ("Error fetching IPO data: " +:+ request_exception_str e);;
          mret []
      | None => mret (default [] (ipoCalendar resp))
      end
  end.

Definition send_email (w : world) (subject body : string) : io bool :=
  perform (SmtpSession SMTP_SERVER SMTP_PORT (EMAIL_ADDRESS w) subject body);;
  match smtp w with
  | Delivered =>
      print ("✓ Email sent successfully to " +:+ env_str (EMAIL_ADDRESS w));;
      mret true
  | AuthenticationFailed =>
      print "✗ Email authentication failed. Check your email address and password.";;
      print "  For Gmail, make sure you're using an App Password, not your regular password.";;
      mret false
  | SendFailed msg =>
      print ("✗ Error sending email: " +:+ msg);;
      mret false
  end.

(** The [for ipo in qualifying_ipos: print(...)] loop of [main]. *)
Fixpoint print_qualifying (ipos : list dict) : io unit :=
  match ipos with
  | [] => mret tt
  | ipo :: rest =>
      symbol ← lift (dict_getitem ipo "symbol");
      name ← lift (dict_getitem ipo "name");
      offer_amount ← lift (dict_getitem ipo "offer_amount");
      offer_amount_text ← lift (py_format_comma offer_amount);
      print ("  • " +:+ py_str symbol +:+ " - " +:+ py_str name +:+
             " ($" +:+ offer_amount_text +:+ ")");;
      print_qualifying rest
  end.

Definition main (w : world) : io Z :=
  print (str_repeat "=" 70);;
  print "IPO MONITOR - Daily Check";;
  print (str_repeat "=" 70);;
  print ("Date: " +:+ strftime_stamp (now_banner w));;
  print ("Minimum Offer Amount: $" +:+ int_format_comma MIN_OFFER_AMOUNT);;
  print (str_repeat "-" 70);;
  print "Fetching today's IPO data from Finnhub...";;
  all_ipos ← get_todays_ipos w;
  print ("✓ Found " +:+ int_str (Z.of_nat (length all_ipos)) +:+
         " total IPO(s) for today");;
  print "Filtering for high-value listings...";;
  qualifying_ipos ← lift (filter_large_ipos all_ipos);
  print ("✓ Found " +:+ int_str (Z.of_nat (length qualifying_ipos)) +:+
         " IPO(s) with offer amount > $" +:+ int_format_comma MIN_OFFER_AMOUNT);;
  match qualifying_ipos with
  | [] => mret tt
  | _ :: _ =>
      print (nl +:+ "Qualifying IPOs:");;
      print_qualifying qualifying_ipos
  end;;
  print (nl +:+ "Preparing email notification...");;
  let subject :=
    "IPO Alert: " +:+ int_str (Z.of_nat (length qualifying_ipos)) +:+
    " Large IPO(s) Today - " +:+ strftime_date (now_subject w) in
  body ← lift (format_email_body (now_body w) qualifying_ipos);
  success ← send_email w subject body;
  print (str_repeat "-" 70);;
  (if (success : bool)
   then
     print ("✓ Email sent successfully to " +:+ env_str (EMAIL_ADDRESS w));;
     print "✓ IPO monitoring completed successfully!"
   else
     print "✗ IPO monitoring completed with errors.");;
  print (str_repeat "=" 70);;
  mret (if (success : bool) then 0 else 1).

(** [sys.exit(main())]: the value [main] returns is the exit status; an
    exception that nothing catches ends the interpreter with status 1. *)
Definition exit_status (run : io Z) : Z :=
  match run with
  | (_, Ok code) => code
  | (_, Raise _) => 1
  end.

End Run.

(** A runtime for the examples, whose records hold no float and no
    container: its renderings are never consulted there. *)
Definition sample_runtime : PyRuntime :=
  {| float_str := fun _ => "nan";
     float_format_comma := fun _ => "nan";
     container_str := fun _ => "[]" |}.

(** ** Vocabulary of the specification *)

(** The monetary value of a raw event: its [totalSharesValue], zero when the
    key is absent. *)
Definition monetary_value (ipo : dict) : pyval :=
  default (PInt 0) (ipo !! "totalSharesValue").

(** The numbers among the values: [int], [bool] and [float]. *)
Definition is_number (v : pyval) : bool :=
  match v with
  | PInt _ | PBool _ | PFloat _ => true
  | PNone | PStr _ | PList _ | PDict _ => false
  end.

(** The order of a number against an int; nothing for [nan] and for what is
    no number. *)
Definition numeric_compare (v : pyval) (n : Z) : option comparison :=
  match v with
  | PInt z => Some (z ?= n)
  | PBool b => Some (Z.b2z b ?= n)
  | PFloat f => float_compare_int f n
  | PNone | PStr _ | PList _ | PDict _ => None
  end.

(** "Truthy and numerically at least the threshold". *)
Definition qualifies (ipo : dict) : bool :=
  py_truthy (monetary_value ipo) &&
  match numeric_compare (monetary_value ipo) MIN_OFFER_AMOUNT with
  | Some Eq | Some Gt => true
  | Some Lt | None => false
  end.

(** The monetary value is false or a number: what the threshold test can
    decide. *)
Definition decidable_value (ipo : dict) : bool :=
  negb (py_truthy (monetary_value ipo)) || is_number (monetary_value ipo).

(** The qualifying event of a raw event: each field taken from the source,
    ["N/A"] where the source has none, and the monetary value as
    [offer_amount]. *)
Definition normalized (ipo : dict) : dict :=
  list_to_map
    [ ("symbol", default (PStr "N/A") (ipo !! "symbol"));
      ("name", default (PStr "N/A") (ipo !! "name"));
      ("exchange", default (PStr "N/A") (ipo !! "exchange"));
      ("price", default (PStr "N/A") (ipo !! "price"));
      ("shares", default (PStr "N/A") (ipo !! "numberOfShares"));
      ("offer_amount", monetary_value ipo);
      ("status", default (PStr "N/A") (ipo !! "status"));
      ("date", default (PStr "N/A") (ipo !! "date")) ].

(** The threshold test of one record, as the loop evaluates it. *)
Definition threshold_test (ipo : dict) : result bool :=
  if py_truthy (monetary_value ipo)
  then py_ge_int (monetary_value ipo) MIN_OFFER_AMOUNT
  else Ok false.

(** One field of a qualifying event [q] against the raw event [ipo]: the
    source value, or the sentinel ["N/A"] when the source has no such key. *)
Definition field_defaulted (ipo q : dict) (source target : string) : Prop :=
  match ipo !! source with
  | Some v => q !! target = Some v
  | None => q !! target = Some (PStr "N/A")
  end.

(** "At least [n]" for a number. *)
Definition numerically_ge (v : pyval) (n : Z) : Prop :=
  numeric_compare v n = Some Eq \/ numeric_compare v n = Some Gt.

(** A qualifying event [q] that is fully populated from [ipo]. *)
Definition populated_from (ipo q : dict) : Prop :=
  field_defaulted ipo q "symbol" "symbol" /\
  field_defaulted ipo q "name" "name" /\
  field_defaulted ipo q "exchange" "exchange" /\
  field_defaulted ipo q "price" "price" /\
  field_defaulted ipo q "numberOfShares" "shares" /\
  field_defaulted ipo q "status" "status" /\
  field_defaulted ipo q "date" "date" /\
  exists v, ipo !! "totalSharesValue" = Some v /\
            q !! "offer_amount" = Some v /\
            numerically_ge v MIN_OFFER_AMOUNT.

(** ** Reading a document *)

(** [s.startswith(needle)]. *)
Fixpoint starts_with (needle s : string) : bool :=
  match needle, s with
  | "", _ => true
  | String _ _, "" => false
  | String d needle', String c s' => Ascii.eqb d c && starts_with needle' s'
  end.

(** [needle in s]. *)
Fixpoint contains (needle s : string) : bool :=
  starts_with needle s ||
  match s with
  | "" => false
  | String _ rest => contains needle rest
  end.

(** The number of places of [s] at which [needle] starts. *)
Fixpoint occurrences (needle s : string) : nat :=
  ((if starts_with needle s then 1 else 0) +
   match s with
   | "" => 0
   | String _ rest => occurrences needle rest
   end)%nat.

(** [s] holds no character [c]. *)
Fixpoint free_of (c : ascii) (s : string) : bool :=
  match s with
  | "" => true
  | String x rest => negb (Ascii.eqb x c) && free_of c rest
  end.

(** Whether [needle] starts [t] is settled by [t] alone, whatever follows:
    [t] differs from [needle] before it ends, or is as long. *)
Fixpoint settled (needle t : string) : bool :=
  match needle, t with
  | "", _ => true
  | String _ _, "" => false
  | String d needle', String c t' =>
      if Ascii.eqb d c then settled needle' t' else true
  end.

(** No occurrence of [needle] can straddle the end of [s]. *)
Fixpoint closed_for (needle s : string) : bool :=
  match s with
  | "" => true
  | String _ rest => settled needle s && closed_for needle rest
  end.

(** ** Vocabulary of the report *)

(** All the pieces put end to end. *)
Definition concat_all (pieces : list string) : string :=
  foldr String.append "" pieces.

(** The record has the key, with a string, with a number. *)
Definition has_key (ipo : dict) (key : string) : bool :=
  match ipo !! key with
  | Some _ => true
  | None => false
  end.

Definition has_str (ipo : dict) (key : string) : bool :=
  match ipo !! key with
  | Some (PStr _) => true
  | _ => false
  end.

Definition has_number (ipo : dict) (key : string) : bool :=
  match ipo !! key with
  | Some v => is_number v
  | None => false
  end.

(** A qualifying event the table can show: the seven fields of a row are
    there, the symbol is a string (it is joined into the summary), and the
    share count and the offer amount are numbers (they take the thousands
    separator). *)
Definition renderable (ipo : dict) : bool :=
  has_str ipo "symbol" && has_key ipo "name" && has_key ipo "exchange" &&
  has_key ipo "price" && has_number ipo "shares" &&
  has_number ipo "offer_amount" && has_key ipo "status".

Section ReportVocabulary.
Context {RT : PyRuntime}.

(** The text of a field in a row: plain, and with the thousands separator. *)
Definition cell_text (ipo : dict) (key : string) : string :=
  match ipo !! key with
  | Some v => py_str v
  | None => ""
  end.

Definition amount_text (ipo : dict) (key : string) : string :=
  match ipo !! key with
  | Some v => match py_format_comma v with Ok text => text | Raise _ => "" end
  | None => ""
  end.

(** The table row of one record. *)
Definition row_of (ipo : dict) : string :=
  row_template (cell_text ipo "symbol") (cell_text ipo "name")
    (cell_text ipo "exchange") (cell_text ipo "price")
    (amount_text ipo "shares") (amount_text ipo "offer_amount")
    (cell_text ipo "status").

(** No field of the record brings markup of its own into its row. *)
Definition markup_free (ipo : dict) : bool :=
  free_of "<" (cell_text ipo "symbol") && free_of "<" (cell_text ipo "name") &&
  free_of "<" (cell_text ipo "exchange") && free_of "<" (cell_text ipo "price") &&
  free_of "<" (amount_text ipo "shares") &&
  free_of "<" (amount_text ipo "offer_amount") &&
  free_of "<" (cell_text ipo "status").

End ReportVocabulary.

(** ** Example data *)

(** The two qualifying events of the mock data. *)
Definition mock_qualifying : list dict :=
  normalized <$> (take 1 MOCK_IPO_DATA ++ drop 2 MOCK_IPO_DATA).

(** A list whose first record qualifies and whose second holds a string as
    its monetary value. *)
Definition unordered_events : list dict :=
  [ {[ "symbol" := PStr "ACME"; "totalSharesValue" := PInt 300000000 ]};
    {[ "symbol" := PStr "BOLT"; "totalSharesValue" := PStr "unknown" ]} ].



(** A calendar entry without [numberOfShares]. *)
Definition missing_shares_event : dict :=
  list_to_map
    [ ("symbol", PStr "ACME");
      ("name", PStr "Acme Holdings");
      ("exchange", PStr "NYSE");
      ("price", PStr "15.00");
      ("totalSharesValue", PInt 300000000);
      ("status", PStr "expected");
      ("date", PStr "2026-01-30") ].

(** ** Vocabulary of a run *)

(** The morning of the mock data's day. *)
Definition morning : datetime :=
  {| year := 2026; month := January; day := 30;
     hour := 9; minute := 0; second := 0 |}.


(** The status is one [raise_for_status] reports: 400 to 599. *)
Definition error_status (code : Z) : bool := (400 <=? code) && (code <? 600).

(** What the fetch hands to the filter: the calendar of a response that is
    no error, and the empty list otherwise. *)
Definition fetched (w : world) : list dict :=
  match http w with
  | inl _ => []
  | inr resp =>
      if error_status (status_code resp) then [] else default [] (ipoCalendar resp)
  end.

(** The one request of a run. *)
Definition request_of (w : world) : effect :=
  HttpGet "https://finnhub.io/api/v1/calendar/ipo" (strftime_date (now_fetch w))
    (strftime_date (now_fetch w)) (FINNHUB_API_KEY w) 30.

(** The mails a trace attempts, each with its subject and body; the lines it
    prints. *)
Definition email_attempts (t : list effect) : list (string * string) :=
  omap (fun e => match e with
                 | SmtpSession _ _ _ subject body => Some (subject, body)
                 | _ => None
                 end) t.

Definition printed (t : list effect) : list string :=
  omap (fun e => match e with
                 | Print text => Some text
                 | _ => None
                 end) t.

(** The mail session accepts the message. *)
Definition delivered (w : world) : bool :=
  match smtp w with
  | Delivered => true
  | AuthenticationFailed | SendFailed _ => false
  end.

(** The two lines of guidance on an authentication failure. *)
Definition guidance : list string :=
  [ "✗ Email authentication failed. Check your email address and password.";
    "  For Gmail, make sure you're using an App Password, not your regular password." ].

(** The subject line for [count] qualifying events. *)
Definition subject_for (w : world) (count : nat) : string :=
  "IPO Alert: " +:+ int_str (Z.of_nat count) +:+ " Large IPO(s) Today - " +:+
  strftime_date (now_subject w).

(** A response with a status outside 2xx that is no error to
    [raise_for_status], and a calendar of three events. *)
Definition multiple_choices_world : world :=
  {| FINNHUB_API_KEY := Some "token";
     EMAIL_ADDRESS := Some "desk@example.org";
     now_banner := morning;
     now_fetch := morning;
     now_subject := morning;
     now_body := morning;
     http := inr {| status_code := 300; reason := "Multiple Choices";
                    url := "https://finnhub.io/api/v1/calendar/ipo";
                    ipoCalendar := Some MOCK_IPO_DATA |};
     smtp := Delivered |}.

(** A run whose fetch succeeds with [calendar] and whose mail session ends
    as [outcome]. *)
Definition world_with (calendar : list dict) (outcome : smtp_outcome) : world :=
  {| FINNHUB_API_KEY := Some "token";
     EMAIL_ADDRESS := Some "desk@example.org";
     now_banner := morning;
     now_fetch := morning;
     now_subject := morning;
     now_body := morning;
     http := inr {| status_code := 200; reason := "OK";
                    url := "https://finnhub.io/api/v1/calendar/ipo";
                    ipoCalendar := Some calendar |};
     smtp := outcome |}.

(** A run whose request times out. *)
Definition timeout_world : world :=
  {| FINNHUB_API_KEY := Some "token";
     EMAIL_ADDRESS := Some "desk@example.org";
     now_banner := morning;
     now_fetch := morning;
     now_subject := morning;
     now_body := morning;
     http := inl (Timeout "Read timed out. (read timeout=30)");
     smtp := AuthenticationFailed |}.

(** ** Vocabulary of the further properties *)

(** The keys the filter reads from a raw event, the keys it writes to a
    qualifying event, and the keys a table row reads from it. *)
Definition source_keys : list string :=
  [ "symbol"; "name"; "exchange"; "price"; "numberOfShares";
    "totalSharesValue"; "status"; "date" ].

Definition output_keys : list string :=
  [ "symbol"; "name"; "exchange"; "price"; "shares"; "offer_amount";
    "status"; "date" ].

Definition row_keys : list string :=
  [ "symbol"; "name"; "exchange"; "price"; "shares"; "offer_amount"; "status" ].

(** Two records hold the same under each of the [keys]. *)
Definition same_on (keys : list string) (a b : dict) : Prop :=
  Forall (fun key => a !! key = b !! key) keys.

(** A raw event whose qualifying event the table can show: its symbol is a
    string or absent (then ["N/A"] stands for it), and its share count is
    there and a number. *)
Definition presentable (ipo : dict) : bool :=
  match ipo !! "symbol" with
  | None | Some (PStr _) => true
  | Some _ => false
  end &&
  match ipo !! "numberOfShares" with
  | Some v => is_number v
  | None => false
  end.

(** The requests of a trace. *)
Definition http_requests (t : list effect) : list effect :=
  List.filter (fun e => match e with HttpGet _ _ _ _ _ => true | _ => false end) t.

(** An entry of a trace that is a line on the console. *)
Definition is_print (e : effect) : bool :=
  match e with
  | Print _ => true
  | _ => false
  end.

(** The lines [main] prints before it fetches. *)
Definition opening_lines (w : world) : list string :=
  [ str_repeat "=" 70;
    "IPO MONITOR - Daily Check";
    str_repeat "=" 70;
    "Date: " +:+ strftime_stamp (now_banner w);
    "Minimum Offer Amount: $" +:+ int_format_comma MIN_OFFER_AMOUNT;
    str_repeat "-" 70;
    "Fetching today's IPO data from Finnhub..." ].

(** The lines a run ends with once the mail session is over: what
    [send_email] reports, then the last lines of [main]. *)
Definition closing_lines (w : world) : list string :=
  match smtp w with
  | Delivered =>
      [ "✓ Email sent successfully to " +:+ env_str (EMAIL_ADDRESS w);
        str_repeat "-" 70;
        "✓ Email sent successfully to " +:+ env_str (EMAIL_ADDRESS w);
        "✓ IPO monitoring completed successfully!";
        str_repeat "=" 70 ]
  | AuthenticationFailed =>
      [ "✗ Email authentication failed. Check your email address and password.";
        "  For Gmail, make sure you're using an App Password, not your regular password.";
        str_repeat "-" 70;
        "✗ IPO monitoring completed with errors.";
        str_repeat "=" 70 ]
  | SendFailed msg =>
      [ "✗ Error sending email: " +:+ msg;
        str_repeat "-" 70;
        "✗ IPO monitoring completed with errors.";
        str_repeat "=" 70 ]
  end.

(** A run whose request fails to connect and whose mail is accepted. *)
Definition offline_world : world :=
  {| FINNHUB_API_KEY := Some "token";
     EMAIL_ADDRESS := Some "desk@example.org";
     now_banner := morning;
     now_fetch := morning;
     now_subject := morning;
     now_body := morning;
     http := inl (ConnectionError "Name or service not known");
     smtp := Delivered |}.

(** ** The run on any response *)

(** The script checks nothing of what it receives. The definitions above
    take the body of the response in the shape the calendar API documents;
    the ones of [Wire] take it as [response.json()] meets it, text that is
    no JSON or any JSON value, and follow the same functions of the script
    where a value of another type than expected arrives. *)

(** A byte of the form [10xxxxxx], which continues a character in UTF-8. *)
Definition continuation_byte (c : ascii) : bool :=
  match c with
  | Ascii _ _ _ _ _ _ false true => true
  | _ => false
  end.

(** The characters of a string, each a string of its own: a byte together
    with the continuation bytes that follow it. *)
Fixpoint characters (s : string) : list string :=
  match s with
  | "" => []
  | String c rest =>
      match characters rest with
      | String c' next :: others =>
          if continuation_byte c'
          then String c (String c' next) :: others
          else String c "" :: String c' next :: others
      | others => String c "" :: others
      end
  end.

(** [len(v)]: the characters of a string, the items of a list, the keys of
    a dict; [None], a truth value and a number have no length. *)
Definition py_len (v : pyval) : result nat :=
  match v with
  | PStr s => Ok (length (characters s))
  | PList xs => Ok (length xs)
  | PDict d => Ok (size d)
  | PNone | PBool _ | PInt _ | PFloat _ => Raise TypeError
  end.

(** What [for x in v] goes through: the items of a list, the characters of
    a string, the keys of a dict (all of them strings; the order among them
    is that of the map); nothing else among the JSON values is iterable. *)
Definition py_iter (v : pyval) : result (list pyval) :=
  match v with
  | PList xs => Ok xs
  | PStr s => Ok (PStr <$> characters s)
  | PDict d => Ok (PStr <$> (map_to_list d).*1)
  | PNone | PBool _ | PInt _ | PFloat _ => Raise TypeError
  end.

(** [v.get(key, default)]: a method of [dict] alone among the JSON values. *)
Definition py_get (v : pyval) (key : string) (dflt : pyval) : result pyval :=
  match v with
  | PDict d => Ok (dict_get d key dflt)
  | PNone | PBool _ | PInt _ | PFloat _ | PStr _ | PList _ => Raise AttributeError
  end.

Module Wire.

(** What [response.json()] does with the body: it raises [JSONDecodeError]
    (a [RequestException] in requests 2.27 and later; [msg] is its text) or
    returns the value decoded. *)
Inductive payload : Type :=
| NotJson (msg : string)
| Json (data : pyval).

Record response : Type := {
  status_code : Z;
  reason : string;
  url : string;
  json : payload
}.

Record world : Type := {
  FINNHUB_API_KEY : option string;
  EMAIL_ADDRESS : option string;
  now_banner : datetime;
  now_fetch : datetime;
  now_subject : datetime;
  now_body : datetime;
  http : request_exception + response;
  smtp : smtp_outcome
}.

Definition raise_for_status (r : response) : option request_exception :=
  if (400 <=? status_code r) && (status_code r <? 500)
  then Some (HTTPError (int_str (status_code r) +:+ " Client Error: " +:+
                        reason r +:+ " for url: " +:+ url r))
  else if (500 <=? status_code r) && (status_code r <? 600)
  then Some (HTTPError (int_str (status_code r) +:+ " Server Error: " +:+
                        reason r +:+ " for url: " +:+ url r))
  else None.

(** The [for ipo in ipo_list] loop of [filter_large_ipos] over items of any
    type: [ipo.get] raises at the first item that is no dict. *)
Fixpoint filter_loop (ipo_list : list pyval) (qualifying_ipos : list dict)
    : result (list dict) :=
  match ipo_list with
  | [] => Ok qualifying_ipos
  | item :: rest =>
      match item with
      | PDict ipo =>
          let total_value := dict_get ipo "totalSharesValue" (PInt 0) in
          cond ← (if py_truthy total_value
                  then py_ge_int total_value MIN_OFFER_AMOUNT
                  else Ok false);
          if (cond : bool)
          then filter_loop rest
                 (qualifying_ipos ++
                  [ list_to_map
                      [ ("symbol", dict_get ipo "symbol" (PStr "N/A"));
                        ("name", dict_get ipo "name" (PStr "N/A"));
                        ("exchange", dict_get ipo "exchange" (PStr "N/A"));
                        ("price", dict_get ipo "price" (PStr "N/A"));
                        ("shares", dict_get ipo "numberOfShares" (PStr "N/A"));
                        ("offer_amount", total_value);
                        ("status", dict_get ipo "status" (PStr "N/A"));
                        ("date", dict_get ipo "date" (PStr "N/A")) ] ])
          else filter_loop rest qualifying_ipos
      | PNone | PBool _ | PInt _ | PFloat _ | PStr _ | PList _ =>
          Raise AttributeError
      end
  end.

Definition filter_large_ipos (ipo_list : pyval) : result (list dict) :=
  items ← py_iter ipo_list;
  filter_loop items [].

Section Run.
Context {RT : PyRuntime}.

(** [response.json()] raising is caught with the other failures of the
    request; [data.get] raising is not. *)
Definition get_todays_ipos (w : world) : io pyval :=
  let today := strftime_date (now_fetch w) in
  perform (HttpGet "https://finnhub.io/api/v1/calendar/ipo" today today
             (FINNHUB_API_KEY w) 30);;
  match http w with
  | inl e =>
      print ("Error fetching IPO data: " +:+ request_exception_str e);;
      mret (PList [])
  | inr resp =>
      match raise_for_status resp with
      | Some e =>
          print ("Error fetching IPO data: " +:+ request_exception_str e);;
          mret (PList [])
      | None =>
          match json resp with
          | NotJson msg =>
              print ("Error fetching IPO data: " +:+ msg);;
              mret (PList [])
          | Json data => lift (py_get data "ipoCalendar" (PList []))
          end
      end
  end.

Definition send_email (w : world) (subject body : string) : io bool :=
  perform (SmtpSession SMTP_SERVER SMTP_PORT (EMAIL_ADDRESS w) subject body);;
  match smtp w with
  | Delivered =>
      print ("✓ Email sent successfully to " +:+ env_str (EMAIL_ADDRESS w));;
      mret true
  | AuthenticationFailed =>
      print "✗ Email authentication failed. Check your email address and password.";;
      print "  For Gmail, make sure you're using an App Password, not your regular password.";;
      mret false
  | SendFailed msg =>
      print ("✗ Error sending email: " +:+ msg);;
      mret false
  end.

(** [len(all_ipos)] is evaluated before the line that shows it is printed. *)
Definition main (w : world) : io Z :=
  print (str_repeat "=" 70);;
  print "IPO MONITOR - Daily Check";;
  print (str_repeat "=" 70);;
  print ("Date: " +:+ strftime_stamp (now_banner w));;
  print ("Minimum Offer Amount: $" +:+ int_format_comma MIN_OFFER_AMOUNT);;
  print (str_repeat "-" 70);;
  print "Fetching today's IPO data from Finnhub...";;
  all_ipos ← get_todays_ipos w;
  count ← lift (py_len all_ipos);
  print ("✓ Found " +:+ int_str (Z.of_nat count) +:+
         " total IPO(s) for today");;
  print "Filtering for high-value listings...";;
  qualifying_ipos ← lift (filter_large_ipos all_ipos);
  print ("✓ Found " +:+ int_str (Z.of_nat (length qualifying_ipos)) +:+
         " IPO(s) with offer amount > $" +:+ int_format_comma MIN_OFFER_AMOUNT);;
  match qualifying_ipos with
  | [] => mret tt
  | _ :: _ =>
      print (nl +:+ "Qualifying IPOs:");;
      print_qualifying qualifying_ipos
  end;;
  print (nl +:+ "Preparing email notification...");;
  let subject :=
    "IPO Alert: " +:+ int_str (Z.of_nat (length qualifying_ipos)) +:+
    " Large IPO(s) Today - " +:+ strftime_date (now_subject w) in
  body ← lift (format_email_body (now_body w) qualifying_ipos);
  success ← send_email w subject body;
  print (str_repeat "-" 70);;
  (if (success : bool)
   then
     print ("✓ Email sent successfully to " +:+ env_str (EMAIL_ADDRESS w));;
     print "✓ IPO monitoring completed successfully!"
   else
     print "✗ IPO monitoring completed with errors.");;
  print (str_repeat "=" 70);;
  mret (if (success : bool) then 0 else 1).

End Run.

(** A run that receives [data] as the decoded body of a 200 response and
    whose mail session ends as [outcome]. *)
Definition world_with (data : pyval) (outcome : smtp_outcome) : world :=
  {| FINNHUB_API_KEY := Some "token";
     EMAIL_ADDRESS := Some "desk@example.org";
     now_banner := morning;
     now_fetch := morning;
     now_subject := morning;
     now_body := morning;
     http := inr {| status_code := 200; reason := "OK";
                    url := "https://finnhub.io/api/v1/calendar/ipo";
                    json := Json data |};
     smtp := outcome |}.

(** The one request of a run. *)
Definition request_of (w : world) : effect :=
  HttpGet "https://finnhub.io/api/v1/calendar/ipo" (strftime_date (now_fetch w))
    (strftime_date (now_fetch w)) (FINNHUB_API_KEY w) 30.

End Wire.

(** A body with [calendar] as its [ipoCalendar]. *)
Definition calendar_body (calendar : pyval) : pyval :=
  PDict {[ "ipoCalendar" := calendar ]}.

(** The events of a calendar in the documented shape, as the JSON value they
    arrive in. *)
Definition events_value (calendar : list dict) : pyval :=
  PList (PDict <$> calendar).

(** The lines a run ends with once the mail session is over, for the
    address the mail goes to and the way the session ended. *)
Definition final_lines (address : option string) (outcome : smtp_outcome)
    : list string :=
  match outcome with
  | Delivered =>
      [ "✓ Email sent successfully to " +:+ env_str address;
        str_repeat "-" 70;
        "✓ Email sent successfully to " +:+ env_str address;
        "✓ IPO monitoring completed successfully!";
        str_repeat "=" 70 ]
  | AuthenticationFailed =>
      [ "✗ Email authentication failed. Check your email address and password.";
        "  For Gmail, make sure you're using an App Password, not your regular password.";
        str_repeat "-" 70;
        "✗ IPO monitoring completed with errors.";
        str_repeat "=" 70 ]
  | SendFailed msg =>
      [ "✗ Error sending email: " +:+ msg;
        str_repeat "-" 70;
        "✗ IPO monitoring completed with errors.";
        str_repeat "=" 70 ]
  end.

(** The typed world [n] describes the same run as [w], whose body has the
    documented shape: the same settings, clock and mail session, the same
    failure of the request or the same status line, and a JSON object whose
    [ipoCalendar], when there, is the array of the objects of [n]. *)
Definition documented (w : Wire.world) (n : world) : Prop :=
  Wire.FINNHUB_API_KEY w = FINNHUB_API_KEY n /\
  Wire.EMAIL_ADDRESS w = EMAIL_ADDRESS n /\
  Wire.now_banner w = now_banner n /\
  Wire.now_fetch w = now_fetch n /\
  Wire.now_subject w = now_subject n /\
  Wire.now_body w = now_body n /\
  Wire.smtp w = smtp n /\
  match Wire.http w, http n with
  | inl e, inl e' => e = e'
  | inr r, inr r' =>
      Wire.status_code r = status_code r' /\
      Wire.reason r = reason r' /\
      Wire.url r = url r' /\
      exists d, Wire.json r = Wire.Json (PDict d) /\
                d !! "ipoCalendar" = events_value <$> ipoCalendar r'
  | _, _ => False
  end.

(** The run of the typed world [n] as it arrives: the body holds the
    calendar and nothing else. *)
Definition on_the_wire (n : world) : Wire.world :=
  {| Wire.FINNHUB_API_KEY := FINNHUB_API_KEY n;
     Wire.EMAIL_ADDRESS := EMAIL_ADDRESS n;
     Wire.now_banner := now_banner n;
     Wire.now_fetch := now_fetch n;
     Wire.now_subject := now_subject n;
     Wire.now_body := now_body n;
     Wire.http :=
       match http n with
       | inl e => inl e
       | inr r =>
           inr {| Wire.status_code := status_code r;
                  Wire.reason := reason r;
                  Wire.url := url r;
                  Wire.json :=
                    Wire.Json
                      (PDict (match ipoCalendar r with
                              | Some calendar =>
                                  {[ "ipoCalendar" := events_value calendar ]}
                              | None => ∅
                              end)) |}
       end;
     Wire.smtp := smtp n |}.

(** ** The filter: what it returns and when *)

Lemma result_bind_ok {A B : Type} (a : A) (k : A -> result B) :
  Ok a ≫= k = k a.
Proof. reflexivity. Qed.

Lemma result_bind_raise {A B : Type} (e : exn) (k : A -> result B) :
  Raise e ≫= k = Raise e.
Proof. reflexivity. Qed.

Lemma py_ge_int_number (v : pyval) (n : Z) :
  is_number v = true ->
  py_ge_int v n =
  Ok match numeric_compare v n with
     | Some Eq | Some Gt => true
     | Some Lt | None => false
     end.
Proof.
  destruct v as [| b | z | f | | |]; try discriminate; intros _; cbn.
  - rewrite Z.leb_antisym, Z.ltb_compare. by destruct (Z.b2z b ?= n).
  - rewrite Z.leb_antisym, Z.ltb_compare. by destruct (z ?= n).
  - reflexivity.
Qed.

Lemma py_ge_int_not_number (v : pyval) (n : Z) :
  is_number v = false -> py_ge_int v n = Raise TypeError.
Proof. by destruct v. Qed.

Lemma threshold_test_decidable (ipo : dict) :
  decidable_value ipo = true -> threshold_test ipo = Ok (qualifies ipo).
Proof.
  unfold decidable_value, threshold_test, qualifies.
  destruct (py_truthy (monetary_value ipo)); cbn; [|done].
  intros Hnum. by rewrite py_ge_int_number.
Qed.

Lemma threshold_test_undecidable (ipo : dict) :
  decidable_value ipo = false -> threshold_test ipo = Raise TypeError.
Proof.
  unfold decidable_value, threshold_test.
  destruct (py_truthy (monetary_value ipo)); cbn; [|done].
  apply py_ge_int_not_number.
Qed.

Lemma filter_loop_cons (ipo : dict) (rest acc : list dict) :
  filter_loop (ipo :: rest) acc =
  cond ← threshold_test ipo;
  if (cond : bool)
  then filter_loop rest (acc ++ [normalized ipo])
  else filter_loop rest acc.
Proof. reflexivity. Qed.

Lemma filter_loop_decidable (xs acc : list dict) :
  Forall (fun ipo => decidable_value ipo = true) xs ->
  filter_loop xs acc = Ok (acc ++ (normalized <$> List.filter qualifies xs)).
Proof.
  intros Hxs. revert acc.
  induction Hxs as [| ipo rest Hipo _ IH]; intros acc.
  - cbn. by rewrite app_nil_r.
  - rewrite filter_loop_cons, (threshold_test_decidable _ Hipo), result_bind_ok.
    cbn [List.filter]. destruct (qualifies ipo).
    + rewrite IH, fmap_cons. by rewrite <- app_assoc.
    + apply IH.
Qed.

Lemma filter_loop_undecidable (xs acc : list dict) :
  Exists (fun ipo => decidable_value ipo = false) xs ->
  filter_loop xs acc = Raise TypeError.
Proof.
  intros Hxs. revert acc.
  induction Hxs as [ipo rest Hipo | ipo rest _ IH]; intros acc;
    rewrite filter_loop_cons.
  - by rewrite (threshold_test_undecidable _ Hipo).
  - destruct (decidable_value ipo) eqn:Hipo.
    + rewrite (threshold_test_decidable _ Hipo), result_bind_ok.
      destruct (qualifies ipo); apply IH.
    + by rewrite (threshold_test_undecidable _ Hipo).
Qed.

Lemma filter_large_ipos_decidable (xs : list dict) :
  Forall (fun ipo => decidable_value ipo = true) xs ->
  filter_large_ipos xs = Ok (normalized <$> List.filter qualifies xs).
Proof. intros Hxs. unfold filter_large_ipos. by rewrite filter_loop_decidable. Qed.

Lemma decidable_or_not (xs : list dict) :
  Forall (fun ipo => decidable_value ipo = true) xs \/
  Exists (fun ipo => decidable_value ipo = false) xs.
Proof.
  induction xs as [| ipo rest [IH | IH]]; [by left | |].
  - destruct (decidable_value ipo) eqn:Hipo; [left | right]; by constructor.
  - right. by apply Exists_cons_tl.
Qed.

(** The filter returns exactly on the lists it can decide; otherwise it
    raises [TypeError]. *)
Lemma filter_large_ipos_cases (xs : list dict) :
  (Forall (fun ipo => decidable_value ipo = true) xs /\
   filter_large_ipos xs = Ok (normalized <$> List.filter qualifies xs)) \/
  (Exists (fun ipo => decidable_value ipo = false) xs /\
   filter_large_ipos xs = Raise TypeError).
Proof.
  destruct (decidable_or_not xs) as [H | H]; [left | right]; split; trivial.
  - by apply filter_large_ipos_decidable.
  - by apply filter_loop_undecidable.
Qed.

Lemma filter_large_ipos_inv (xs out : list dict) :
  filter_large_ipos xs = Ok out ->
  Forall (fun ipo => decidable_value ipo = true) xs /\
  out = normalized <$> List.filter qualifies xs.
Proof.
  intros Hout. destruct (filter_large_ipos_cases xs) as [[H E] | [_ E]];
    rewrite E in Hout; [|discriminate].
  split; [done | congruence].
Qed.

Lemma filter_loop_app (xs ys acc : list dict) :
  filter_loop (xs ++ ys) acc = kept ← filter_loop xs acc; filter_loop ys kept.
Proof.
  revert acc. induction xs as [| ipo rest IH]; intros acc; [done|].
  rewrite <- app_comm_cons, !filter_loop_cons.
  destruct (threshold_test ipo) as [[] |]; cbn; [apply IH | apply IH | done].
Qed.

Lemma filter_loop_acc (xs acc : list dict) :
  filter_loop xs acc = out ← filter_loop xs []; Ok (acc ++ out).
Proof.
  destruct (decidable_or_not xs) as [H | H].
  - by rewrite !filter_loop_decidable.
  - by rewrite !filter_loop_undecidable.
Qed.

(** ** Facts about single records *)

Lemma normalized_lookup_symbol (ipo : dict) :
  normalized ipo !! "symbol" = Some (default (PStr "N/A") (ipo !! "symbol")).
Proof. unfold normalized. cbn [list_to_map foldr uncurry]. by rewrite lookup_insert_eq. Qed.

Ltac lookup_literal :=
  unfold normalized; cbn [list_to_map foldr uncurry];
  repeat (rewrite lookup_insert_ne by done);
  first [ by rewrite lookup_insert_eq | by rewrite lookup_empty ].

Lemma normalized_lookup_name (ipo : dict) :
  normalized ipo !! "name" = Some (default (PStr "N/A") (ipo !! "name")).
Proof. lookup_literal. Qed.

Lemma normalized_lookup_exchange (ipo : dict) :
  normalized ipo !! "exchange" = Some (default (PStr "N/A") (ipo !! "exchange")).
Proof. lookup_literal. Qed.

Lemma normalized_lookup_price (ipo : dict) :
  normalized ipo !! "price" = Some (default (PStr "N/A") (ipo !! "price")).
Proof. lookup_literal. Qed.

Lemma normalized_lookup_shares (ipo : dict) :
  normalized ipo !! "shares" = Some (default (PStr "N/A") (ipo !! "numberOfShares")).
Proof. lookup_literal. Qed.

Lemma normalized_lookup_offer_amount (ipo : dict) :
  normalized ipo !! "offer_amount" = Some (monetary_value ipo).
Proof. lookup_literal. Qed.

Lemma normalized_lookup_status (ipo : dict) :
  normalized ipo !! "status" = Some (default (PStr "N/A") (ipo !! "status")).
Proof. lookup_literal. Qed.

Lemma normalized_lookup_date (ipo : dict) :
  normalized ipo !! "date" = Some (default (PStr "N/A") (ipo !! "date")).
Proof. lookup_literal. Qed.

(** The qualifying record carries its value as [offer_amount]: it has no
    [totalSharesValue]. *)
Lemma normalized_lookup_totalSharesValue (ipo : dict) :
  normalized ipo !! "totalSharesValue" = None.
Proof. lookup_literal. Qed.

Lemma field_defaulted_intro (ipo q : dict) (source target : string) :
  q !! target = Some (default (PStr "N/A") (ipo !! source)) ->
  field_defaulted ipo q source target.
Proof. unfold field_defaulted. by destruct (ipo !! source). Qed.

Lemma float_compare_eq_truthy (f : float) (n : Z) :
  n <> 0 -> float_compare_int f n = Some Eq -> py_truthy (PFloat f) = true.
Proof.
  unfold float_compare_int, py_truthy.
  destruct (Prim2SF f) as [s | s | | s m e]; try done.
  intros Hn H. by destruct n.
Qed.

Lemma float_compare_gt_truthy (f : float) (n : Z) :
  0 <= n -> float_compare_int f n = Some Gt -> py_truthy (PFloat f) = true.
Proof.
  unfold float_compare_int, py_truthy.
  destruct (Prim2SF f) as [s | s | | s m e]; try done.
  intros Hn H. destruct n; [done | done | lia].
Qed.

(** A number at least a positive bound is true. *)
Lemma numerically_ge_truthy (v : pyval) (n : Z) :
  0 < n -> numerically_ge v n -> py_truthy v = true.
Proof.
  intros Hn [H | H]; destruct v as [| b | z | f | | |]; try done; cbn in *.
  - injection H as H%Z.compare_eq. by destruct b; cbn in *; lia.
  - injection H as H%Z.compare_eq. apply negb_true_iff, Z.eqb_neq. lia.
  - eapply float_compare_eq_truthy; [|done]. lia.
  - injection H as H%Z.compare_gt_iff. by destruct b; cbn in *; lia.
  - injection H as H%Z.compare_gt_iff. apply negb_true_iff, Z.eqb_neq. lia.
  - eapply float_compare_gt_truthy; [|done]. lia.
Qed.

Lemma qualifies_iff (ipo : dict) :
  qualifies ipo = true <->
  py_truthy (monetary_value ipo) = true /\
  numerically_ge (monetary_value ipo) MIN_OFFER_AMOUNT.
Proof.
  unfold qualifies, numerically_ge. rewrite andb_true_iff.
  destruct (numeric_compare (monetary_value ipo) MIN_OFFER_AMOUNT) as [[] |];
    intuition congruence.
Qed.

Lemma qualifies_present (ipo : dict) :
  qualifies ipo = true -> ipo !! "totalSharesValue" = Some (monetary_value ipo).
Proof.
  intros [Ht _]%qualifies_iff. unfold monetary_value in *.
  by destruct (ipo !! "totalSharesValue").
Qed.

Lemma qualifies_is_number (ipo : dict) :
  qualifies ipo = true -> is_number (monetary_value ipo) = true.
Proof.
  intros [_ [H | H]]%qualifies_iff; by destruct (monetary_value ipo).
Qed.

Lemma normalized_populated (ipo : dict) :
  qualifies ipo = true -> populated_from ipo (normalized ipo).
Proof.
  intros Hq. repeat split; try (apply field_defaulted_intro; lookup_literal).
  exists (monetary_value ipo). split; [by apply qualifies_present|].
  split; [lookup_literal|]. by apply qualifies_iff.
Qed.

(** ** The claims about the filter *)

Lemma unordered_filter_run : filter_large_ipos unordered_events = Raise TypeError.
Proof.
  apply filter_loop_undecidable, Exists_cons_tl, Exists_cons_hd.
  vm_compute. reflexivity.
Qed.

(** C1, as stated, fails: on [unordered_events] the filter raises [TypeError]
    and so has no output at all, although the first record's monetary value
    is true and above the threshold. *)
Lemma filter_no_output_on_unordered :
  ~ (exists out, filter_large_ipos unordered_events = Ok out /\
       forall ipo, ipo ∈ unordered_events ->
         (normalized ipo ∈ out <-> qualifies ipo = true)) /\
  filter_large_ipos unordered_events = Raise TypeError /\
  (exists ipo, ipo ∈ unordered_events /\ qualifies ipo = true).
Proof.
  split; [| split; [exact unordered_filter_run |]].
  - intros (out & Hout & _). rewrite unordered_filter_run in Hout. discriminate.
  - eexists. split; [apply list_elem_of_here | vm_compute; reflexivity].
Qed.

(** C1 (amended): on every list of raw events whose monetary values are each
    absent, false or a number, the filter returns, and its output is the
    qualifying events of exactly the records whose monetary value is true and
    numerically at least 200,000,000, in their order. A value equal to the
    threshold qualifies; a value below it, a false value (zero) and an absent
    one do not. *)
Theorem filter_includes_iff_qualifies :
  (forall xs : list dict,
     Forall (fun ipo => decidable_value ipo = true) xs ->
     exists out,
       filter_large_ipos xs = Ok out /\
       out = normalized <$> List.filter qualifies xs /\
       forall q, q ∈ out <->
                 exists ipo, ipo ∈ xs /\ qualifies ipo = true /\ q = normalized ipo) /\
  MIN_OFFER_AMOUNT = 200000000 /\
  (forall ipo : dict,
     qualifies ipo = true <->
     py_truthy (monetary_value ipo) = true /\
     numerically_ge (monetary_value ipo) MIN_OFFER_AMOUNT) /\
  (forall ipo : dict,
     numeric_compare (monetary_value ipo) MIN_OFFER_AMOUNT = Some Eq ->
     qualifies ipo = true) /\
  (forall ipo : dict,
     numeric_compare (monetary_value ipo) MIN_OFFER_AMOUNT = Some Lt \/
     py_truthy (monetary_value ipo) = false \/
     ipo !! "totalSharesValue" = None ->
     qualifies ipo = false).
Proof.
  split; [| split; [reflexivity | split; [exact qualifies_iff | split]]].
  - intros xs Hxs. eexists. split; [by apply filter_large_ipos_decidable|].
    split; [reflexivity|]. intros q. rewrite list_elem_of_fmap. split.
    + intros (ipo & -> & Hin). exists ipo.
      apply list_elem_of_In, filter_In in Hin as [Hin Hq].
      by rewrite list_elem_of_In.
    + intros (ipo & Hin & Hq & ->). exists ipo. split; [done|].
      apply list_elem_of_In, filter_In. by rewrite <- list_elem_of_In.
  - intros ipo H. apply qualifies_iff. split.
    + apply (numerically_ge_truthy _ MIN_OFFER_AMOUNT); [done | by left].
    + by left.
  - intros ipo H. unfold qualifies.
    destruct H as [-> | [-> | H]]; [apply andb_false_r | done |].
    unfold monetary_value. by rewrite H.
Qed.

(** The amended C1 at the mock data, with a record at the threshold added. *)
Lemma filter_includes_iff_qualifies_witness :
  Forall (fun ipo => decidable_value ipo = true)
    ({[ "symbol" := PStr "EDGE"; "totalSharesValue" := PInt 200000000 ]}
       :: MOCK_IPO_DATA) /\
  exists out,
    filter_large_ipos
      ({[ "symbol" := PStr "EDGE"; "totalSharesValue" := PInt 200000000 ]}
         :: MOCK_IPO_DATA) = Ok out /\
    length out = 3%nat.
Proof.
  assert (H : Forall (fun ipo => decidable_value ipo = true)
                ({[ "symbol" := PStr "EDGE"; "totalSharesValue" := PInt 200000000 ]}
                   :: MOCK_IPO_DATA))
    by (repeat constructor).
  split; [exact H|].
  destruct (proj1 filter_includes_iff_qualifies _ H) as (out & Hout & -> & _).
  exists (normalized <$>
          List.filter qualifies
            ({[ "symbol" := PStr "EDGE"; "totalSharesValue" := PInt 200000000 ]}
               :: MOCK_IPO_DATA)).
  split; [exact Hout | reflexivity].
Defined.

Lemma filter_keep (ipo : dict) (rest : list dict) :
  qualifies ipo = true ->
  List.filter qualifies (ipo :: rest) = ipo :: List.filter qualifies rest.
Proof. intros H. cbn. by rewrite H. Qed.

Lemma filter_skip (ipo : dict) (rest : list dict) :
  qualifies ipo = false ->
  List.filter qualifies (ipo :: rest) = List.filter qualifies rest.
Proof. intros H. cbn. by rewrite H. Qed.

(** Deciding [qualifies] and [decidable_value] on a literal record. *)
Ltac run_filter :=
  repeat first
    [ rewrite filter_keep by (vm_compute; reflexivity)
    | rewrite filter_skip by (vm_compute; reflexivity) ].

Ltac all_decidable :=
  repeat (apply List.Forall_cons; [vm_compute; reflexivity|]); apply List.Forall_nil.

Lemma mock_decidable :
  Forall (fun ipo => decidable_value ipo = true) MOCK_IPO_DATA.
Proof. unfold MOCK_IPO_DATA. all_decidable. Qed.

Lemma mock_filter_run :
  filter_large_ipos MOCK_IPO_DATA =
  Ok (normalized <$> (take 1 MOCK_IPO_DATA ++ drop 2 MOCK_IPO_DATA)).
Proof.
  rewrite (filter_large_ipos_decidable _ mock_decidable).
  unfold MOCK_IPO_DATA. by run_filter.
Qed.

(** C2: of the three mock records, worth 270,000,000, 175,000,000 and
    500,000,000, the filter returns exactly two qualifying events, those of
    the first and of the third, in that order; and the scan keeps the order
    of any input: what it returns is the qualifying records in the order of
    the list, and filtering a concatenation is filtering its parts in turn. *)
Theorem mock_first_and_third_qualify :
  monetary_value <$> MOCK_IPO_DATA =
    [PInt 270000000; PInt 175000000; PInt 500000000] /\
  filter_large_ipos MOCK_IPO_DATA =
    Ok (normalized <$> (take 1 MOCK_IPO_DATA ++ drop 2 MOCK_IPO_DATA)) /\
  (exists out, filter_large_ipos MOCK_IPO_DATA = Ok out /\
     length out = 2%nat /\
     (fun q : dict => q !! "symbol") <$> out =
       [Some (PStr "MEVOU"); Some (PStr "TESTIPO")] /\
     (fun q : dict => q !! "offer_amount") <$> out =
       [Some (PInt 270000000); Some (PInt 500000000)]) /\
  (forall xs : list dict,
     filter_large_ipos xs = Ok (normalized <$> List.filter qualifies xs) \/
     filter_large_ipos xs = Raise TypeError) /\
  (forall xs ys : list dict,
     filter_large_ipos (xs ++ ys) =
     front ← filter_large_ipos xs; back ← filter_large_ipos ys; Ok (front ++ back)).
Proof.
  split; [vm_compute; reflexivity|].
  split; [exact mock_filter_run|]. split; [| split].
  - eexists. split; [exact mock_filter_run|]. repeat split; vm_compute; reflexivity.
  - intros xs. destruct (filter_large_ipos_cases xs) as [[_ E] | [_ E]]; tauto.
  - intros xs ys. unfold filter_large_ipos. rewrite filter_loop_app.
    destruct (filter_loop xs []) as [front |]; [|done].
    rewrite result_bind_ok. apply filter_loop_acc.
Qed.

(** C5: every record of every output of the filter is fully populated from a
    record of the input: symbol, name, exchange, price, shares, status and
    date each hold the source value, or ["N/A"] where the source has no such
    key, and offer_amount is the source's totalSharesValue, which is present
    and numerically at least the threshold. *)
Theorem filter_output_fully_populated (xs out : list dict) :
  filter_large_ipos xs = Ok out ->
  Forall (fun q => exists ipo, ipo ∈ xs /\ populated_from ipo q) out.
Proof.
  intros [_ ->]%filter_large_ipos_inv.
  apply Forall_fmap, Forall_forall. intros ipo [Hin Hq]%list_elem_of_In%filter_In.
  exists ipo. split; [by apply list_elem_of_In | by apply normalized_populated].
Qed.

(** C5 at the mock data. *)
Lemma filter_output_fully_populated_witness :
  filter_large_ipos MOCK_IPO_DATA =
    Ok (normalized <$> (take 1 MOCK_IPO_DATA ++ drop 2 MOCK_IPO_DATA)) /\
  Forall (fun q => exists ipo, ipo ∈ MOCK_IPO_DATA /\ populated_from ipo q)
    (normalized <$> (take 1 MOCK_IPO_DATA ++ drop 2 MOCK_IPO_DATA)).
Proof.
  split; [exact mock_filter_run|].
  exact (filter_output_fully_populated MOCK_IPO_DATA _ mock_filter_run).
Defined.

Lemma normalized_monetary_value (ipo : dict) :
  monetary_value (normalized ipo) = PInt 0.
Proof. unfold monetary_value. by rewrite normalized_lookup_totalSharesValue. Qed.

Lemma refilter_empty (out : list dict) :
  Forall (fun q => monetary_value q = PInt 0) out ->
  filter_large_ipos out = Ok [].
Proof.
  intros H. rewrite filter_large_ipos_decidable.
  - f_equal. induction H as [| q rest Hq _ IH]; [done|].
    rewrite filter_skip; [exact IH|]. unfold qualifies. by rewrite Hq.
  - eapply Forall_impl; [exact H|]. intros q Hq. unfold decidable_value.
    by rewrite Hq.
Qed.

Lemma mock_refilter_run :
  (out ← filter_large_ipos MOCK_IPO_DATA; filter_large_ipos out) = Ok [].
Proof.
  rewrite mock_filter_run, result_bind_ok. apply refilter_empty, Forall_fmap.
  apply Forall_forall. intros ipo _. apply normalized_monetary_value.
Qed.

(** C8, as stated, fails: filtering the filter's output of the mock data
    gives the empty list, not the two qualifying events again. *)
Lemma refilter_mock_not_idempotent :
  (out ← filter_large_ipos MOCK_IPO_DATA; filter_large_ipos out) <>
  filter_large_ipos MOCK_IPO_DATA.
Proof. rewrite mock_refilter_run, mock_filter_run. discriminate. Qed.

(** C8 (amended): every value the filter retains is already true and at least
    the threshold, so the threshold test keeps every [offer_amount] of the
    output; but an output record carries that value as [offer_amount] and has
    no [totalSharesValue], so [filter_large_ipos] applied to its own output
    returns the empty list, and reproduces the output only when it is empty. *)
Theorem refilter_output (xs out : list dict) :
  filter_large_ipos xs = Ok out ->
  Forall (fun q => exists v, q !! "offer_amount" = Some v /\
                             py_truthy v = true /\
                             py_ge_int v MIN_OFFER_AMOUNT = Ok true) out /\
  filter_large_ipos out = Ok [] /\
  (filter_large_ipos out = Ok out <-> out = []).
Proof.
  intros [_ ->]%filter_large_ipos_inv.
  assert (E : filter_large_ipos (normalized <$> List.filter qualifies xs) = Ok []).
  { apply refilter_empty, Forall_fmap, Forall_forall. intros ipo _.
    apply normalized_monetary_value. }
  split; [| split; [exact E |]].
  - apply Forall_fmap, Forall_forall.
    intros ipo [_ Hq]%list_elem_of_In%filter_In.
    exists (monetary_value ipo). split; [apply normalized_lookup_offer_amount|].
    pose proof (qualifies_is_number _ Hq) as Hnum.
    apply qualifies_iff in Hq as [Ht Hge]. split; [done|].
    rewrite py_ge_int_number by done. by destruct Hge as [-> | ->].
  - rewrite E. split; [by intros [= <-] | by intros ->].
Qed.

(** The amended C8 at the mock data. *)
Lemma refilter_output_witness :
  filter_large_ipos MOCK_IPO_DATA =
    Ok (normalized <$> (take 1 MOCK_IPO_DATA ++ drop 2 MOCK_IPO_DATA)) /\
  filter_large_ipos
    (normalized <$> (take 1 MOCK_IPO_DATA ++ drop 2 MOCK_IPO_DATA)) = Ok [].
Proof.
  split; [exact mock_filter_run|].
  exact (proj1 (proj2 (refilter_output MOCK_IPO_DATA _ mock_filter_run))).
Defined.

(** C10: the filter returns exactly on the lists whose monetary values are
    each false or a number; a record whose totalSharesValue is true and no
    number (a non-empty string, a non-empty list or object) makes the
    comparison with the threshold raise [TypeError], wherever it stands in
    the list, so the record is neither included nor excluded. *)
Theorem filter_raises_on_unordered_value :
  (forall xs : list dict,
     returns (filter_large_ipos xs) <->
     Forall (fun ipo => decidable_value ipo = true) xs) /\
  (forall (v : pyval) (n : Z),
     is_number v = false -> py_ge_int v n = Raise TypeError) /\
  (forall (xs ys : list dict) (ipo : dict),
     py_truthy (monetary_value ipo) = true ->
     is_number (monetary_value ipo) = false ->
     threshold_test ipo = Raise TypeError /\
     filter_large_ipos (xs ++ ipo :: ys) = Raise TypeError) /\
  (forall (ipo : dict) (s : string),
     ipo !! "totalSharesValue" = Some (PStr s) -> s <> "" ->
     filter_large_ipos [ipo] = Raise TypeError).
Proof.
  assert (Hbad : forall ipo : dict,
             py_truthy (monetary_value ipo) = true ->
             is_number (monetary_value ipo) = false ->
             decidable_value ipo = false).
  { intros ipo Ht Hn. unfold decidable_value. by rewrite Ht, Hn. }
  split; [| split; [exact py_ge_int_not_number | split]].
  - intros xs. split.
    + intros [out Hout]. by apply filter_large_ipos_inv in Hout as [H _].
    + intros H. eexists. by apply filter_large_ipos_decidable.
  - intros xs ys ipo Ht Hn. split.
    + by apply threshold_test_undecidable, Hbad.
    + apply filter_loop_undecidable, Exists_app. right.
      apply Exists_cons_hd. by apply Hbad.
  - intros ipo s Hv Hs. apply filter_loop_undecidable, Exists_cons_hd, Hbad;
      unfold monetary_value; rewrite Hv; cbn; [|done].
    by destruct s.
Qed.

(** C10 at a record whose value is the string ["unknown"]. *)
Lemma filter_raises_on_unordered_value_witness :
  py_truthy (monetary_value {[ "totalSharesValue" := PStr "unknown" ]}) = true /\
  is_number (monetary_value {[ "totalSharesValue" := PStr "unknown" ]}) = false /\
  filter_large_ipos
    (MOCK_IPO_DATA ++ {[ "totalSharesValue" := PStr "unknown" ]} :: MOCK_IPO_DATA)
  = Raise TypeError.
Proof.
  assert (Ht : py_truthy (monetary_value {[ "totalSharesValue" := PStr "unknown" ]}) = true)
    by reflexivity.
  assert (Hn : is_number (monetary_value {[ "totalSharesValue" := PStr "unknown" ]}) = false)
    by reflexivity.
  split; [exact Ht | split; [exact Hn |]].
  exact (proj2 (proj1 (proj2 (proj2 filter_raises_on_unordered_value))
                  MOCK_IPO_DATA MOCK_IPO_DATA _ Ht Hn)).
Defined.

(** ** Searching text that is put together from pieces *)

Lemma append_cons (x : ascii) (a b : string) :
  String x a +:+ b = String x (a +:+ b).
Proof. reflexivity. Qed.

Lemma append_assoc (a b c : string) : (a +:+ b) +:+ c = a +:+ (b +:+ c).
Proof. induction a as [| x a IH]; [done|]. rewrite !append_cons. by f_equal. Qed.

Lemma append_empty_r (a : string) : a +:+ "" = a.
Proof. induction a as [| x a IH]; [done|]. rewrite append_cons. by f_equal. Qed.

Lemma settled_prefix (needle t rest : string) :
  settled needle t = true ->
  starts_with needle (t +:+ rest) = starts_with needle t.
Proof.
  revert t. induction needle as [| d needle IH]; intros t; [done|].
  destruct t as [| c t]; [done|].
  rewrite append_cons. cbn [settled starts_with].
  destruct (Ascii.eqb d c); [apply IH | done].
Qed.

Lemma settled_app (needle t rest : string) :
  settled needle t = true -> settled needle (t +:+ rest) = true.
Proof.
  revert t. induction needle as [| d needle IH]; intros t; [done|].
  destruct t as [| c t]; [done|].
  rewrite append_cons. cbn [settled].
  destruct (Ascii.eqb d c); [apply IH | done].
Qed.

Lemma closed_for_app (needle a b : string) :
  closed_for needle a = true -> closed_for needle b = true ->
  closed_for needle (a +:+ b) = true.
Proof.
  intros Ha Hb. induction a as [| x a IH]; [done|].
  cbn [closed_for] in Ha. apply andb_true_iff in Ha as [Hs Ha].
  change (String x a +:+ b) with (String x (a +:+ b)). cbn [closed_for].
  apply andb_true_iff. split; [|by apply IH].
  change (String x (a +:+ b)) with (String x a +:+ b). by apply settled_app.
Qed.

Lemma occurrences_app (needle a b : string) :
  needle <> "" -> closed_for needle a = true ->
  occurrences needle (a +:+ b) = (occurrences needle a + occurrences needle b)%nat.
Proof.
  intros Hne Ha. induction a as [| x a IH].
  - destruct needle; [done|]. reflexivity.
  - cbn [closed_for] in Ha. apply andb_true_iff in Ha as [Hs Ha].
    change (String x a +:+ b) with (String x (a +:+ b)).
    cbn [occurrences]. rewrite (IH Ha).
    change (String x (a +:+ b)) with (String x a +:+ b).
    rewrite (settled_prefix _ _ _ Hs). lia.
Qed.

Lemma contains_app (needle a b : string) :
  needle <> "" -> closed_for needle a = true ->
  contains needle (a +:+ b) = contains needle a || contains needle b.
Proof.
  intros Hne Ha. induction a as [| x a IH].
  - destruct needle; [done|]. reflexivity.
  - cbn [closed_for] in Ha. apply andb_true_iff in Ha as [Hs Ha].
    change (String x a +:+ b) with (String x (a +:+ b)).
    cbn [contains]. rewrite (IH Ha).
    change (String x (a +:+ b)) with (String x a +:+ b).
    rewrite (settled_prefix _ _ _ Hs). by rewrite orb_assoc.
Qed.

(** A piece without the first character of [needle] neither holds [needle]
    nor lets it straddle its end. *)
Lemma free_closed (c : ascii) (needle s : string) :
  free_of c s = true -> closed_for (String c needle) s = true.
Proof.
  induction s as [| x s IH]; [done|]. cbn [free_of closed_for settled].
  intros [Hx Hs]%andb_true_iff. rewrite (IH Hs), andb_true_r.
  rewrite Ascii.eqb_sym. by destruct (Ascii.eqb x c).
Qed.

Lemma free_occurrences (c : ascii) (needle s : string) :
  free_of c s = true -> occurrences (String c needle) s = 0%nat.
Proof.
  induction s as [| x s IH]; [done|]. cbn [free_of occurrences starts_with].
  intros [Hx Hs]%andb_true_iff. rewrite (IH Hs).
  rewrite Ascii.eqb_sym. by destruct (Ascii.eqb x c).
Qed.

Lemma free_contains (c : ascii) (needle s : string) :
  free_of c s = true -> contains (String c needle) s = false.
Proof.
  induction s as [| x s IH]; [done|]. cbn [free_of contains starts_with].
  intros [Hx Hs]%andb_true_iff. rewrite (IH Hs).
  rewrite Ascii.eqb_sym. by destruct (Ascii.eqb x c).
Qed.

Lemma contains_app_r (needle a b : string) :
  contains needle b = true -> contains needle (a +:+ b) = true.
Proof.
  intros Hb. induction a as [| x a IH]; [done|].
  change (String x a +:+ b) with (String x (a +:+ b)). cbn [contains].
  rewrite IH. apply orb_true_r.
Qed.

Lemma starts_with_app (needle a b : string) :
  starts_with needle a = true -> starts_with needle (a +:+ b) = true.
Proof.
  revert a. induction needle as [| d needle IH]; intros a; [done|].
  destruct a as [| c a]; [done|].
  rewrite append_cons. cbn [starts_with].
  destruct (Ascii.eqb d c); [apply IH | done].
Qed.

Lemma contains_app_l (needle a b : string) :
  contains needle a = true -> contains needle (a +:+ b) = true.
Proof.
  induction a as [| x a IH].
  - cbn. rewrite orb_false_r. destruct needle; [|done]. by destruct b.
  - change (String x a +:+ b) with (String x (a +:+ b)). cbn [contains].
    intros [Hp | Ha]%orb_true_iff; apply orb_true_iff; [left | right; by apply IH].
    change (String x (a +:+ b)) with (String x a +:+ b). by apply starts_with_app.
Qed.

(** Splitting a search over the pieces of a document: a literal piece is
    checked by evaluation, a piece that is a parameter by its hypothesis. *)
Ltac piece_closed :=
  first [ assumption
        | apply free_closed; assumption
        | vm_compute; reflexivity ].

Ltac split_search :=
  repeat first
    [ rewrite contains_app by first [ discriminate | piece_closed ]
    | rewrite occurrences_app by first [ discriminate | piece_closed ] ].

Ltac reach_piece :=
  repeat lazymatch goal with
         | |- contains _ _ = true =>
             first [ solve [vm_compute; reflexivity] | apply contains_app_r ]
         end.

Lemma free_of_app (c : ascii) (a b : string) :
  free_of c (a +:+ b) = free_of c a && free_of c b.
Proof.
  induction a as [| x a IH]; [done|]. rewrite append_cons. cbn [free_of].
  by rewrite IH, andb_assoc.
Qed.

Lemma free_of_concat (c : ascii) (sep : string) (items : list string) :
  free_of c sep = true -> Forall (fun s => free_of c s = true) items ->
  free_of c (String.concat sep items) = true.
Proof.
  intros Hsep. induction 1 as [| s rest Hs Hrest IH]; [done|].
  cbn [String.concat]. destruct rest as [| s' rest]; [done|].
  change (free_of c (s +:+ sep +:+ String.concat sep (s' :: rest)) = true).
  by rewrite !free_of_app, Hs, Hsep, IH.
Qed.

Lemma free_of_digits (d : Decimal.uint) :
  free_of "<" (NilEmpty.string_of_uint d) = true.
Proof. induction d; cbn [NilEmpty.string_of_uint free_of]; by rewrite ?IHd. Qed.

(** The decimal text of an int holds digits and a sign, no markup. *)
Lemma free_of_int_str (n : Z) : free_of "<" (int_str n) = true.
Proof.
  unfold int_str, NilZero.string_of_int, NilZero.string_of_uint.
  destruct (Z.to_int n) as [[] | []]; cbn [free_of]; try done;
    by rewrite ?free_of_digits.
Qed.

Lemma free_of_two_digits (n : Z) : free_of "<" (two_digits n) = true.
Proof.
  unfold two_digits. destruct (n <? 10); [|apply free_of_int_str].
  by rewrite free_of_app, free_of_int_str.
Qed.

(** The date of the report holds a month name, digits and punctuation. *)
Lemma free_of_strftime_long (now : datetime) :
  free_of "<" (strftime_long now) = true.
Proof.
  unfold strftime_long.
  rewrite !free_of_app, free_of_two_digits, free_of_int_str.
  by destruct (month now).
Qed.

Ltac drop_free :=
  repeat match goal with
         | H : free_of ?c ?s = true |- context [occurrences (String ?c ?n) ?s] =>
             rewrite (free_occurrences c n s H)
         | H : free_of ?c ?s = true |- context [contains (String ?c ?n) ?s] =>
             rewrite (free_contains c n s H)
         end.

Ltac eval_pieces :=
  repeat match goal with
         | |- context [occurrences ?n ?s] =>
             let v := eval vm_compute in (occurrences n s) in
             lazymatch v with
             | O => idtac
             | S _ => idtac
             end;
             replace (occurrences n s) with v by (vm_compute; reflexivity)
         end.

(** ** The report *)

Section Report.
Context {RT : PyRuntime}.

(** C4: for the empty list the report is always the "no events" template: it
    states the threshold with thousands separators, as $200,000,000, and it
    never holds a table, a row or a cell. *)
Theorem empty_report (now : datetime) :
  exists body,
    format_email_body now [] = Ok body /\
    body = empty_template (strftime_long now) "200,000,000" /\
    int_format_comma MIN_OFFER_AMOUNT = "200,000,000" /\
    contains "No U.S. IPOs with offer amounts above $200,000,000 found for today."
      body = true /\
    contains "<table" body = false /\
    contains "<tr" body = false /\
    contains "<td" body = false.
Proof.
  eexists. split; [reflexivity|].
  change (int_format_comma MIN_OFFER_AMOUNT) with "200,000,000".
  split; [reflexivity | split; [reflexivity | split]].
  - unfold empty_template. reach_piece.
  - pose proof (free_of_strftime_long now) as Htoday. unfold empty_template.
    repeat split; split_search;
      rewrite (free_contains _ _ _ Htoday); vm_compute; reflexivity.
Qed.

Lemma has_key_getitem (ipo : dict) (key : string) :
  has_key ipo key = true ->
  exists v, ipo !! key = Some v /\ dict_getitem ipo key = Ok v /\
            cell_text ipo key = py_str v.
Proof.
  unfold has_key, dict_getitem, cell_text. destruct (ipo !! key) as [v |]; [|done].
  by exists v.
Qed.

Lemma has_str_getitem (ipo : dict) (key : string) :
  has_str ipo key = true ->
  exists s, ipo !! key = Some (PStr s) /\ dict_getitem ipo key = Ok (PStr s) /\
            cell_text ipo key = s.
Proof.
  unfold has_str, dict_getitem, cell_text.
  destruct (ipo !! key) as [[| | | | s | |] |]; try done. by exists s.
Qed.

Lemma has_number_getitem (ipo : dict) (key : string) :
  has_number ipo key = true ->
  exists v, dict_getitem ipo key = Ok v /\
            py_format_comma v = Ok (amount_text ipo key).
Proof.
  unfold has_number, dict_getitem, amount_text.
  destruct (ipo !! key) as [v |]; [|done]. intros Hv. exists v.
  split; [done|]. by destruct v.
Qed.

Lemma renderable_fields (ipo : dict) :
  renderable ipo = true ->
  has_str ipo "symbol" = true /\ has_key ipo "name" = true /\
  has_key ipo "exchange" = true /\ has_key ipo "price" = true /\
  has_number ipo "shares" = true /\ has_number ipo "offer_amount" = true /\
  has_key ipo "status" = true.
Proof. unfold renderable. rewrite !andb_true_iff. tauto. Qed.

Lemma rows_loop_step (ipo : dict) (rows : string) :
  renderable ipo = true ->
  forall rest, rows_loop (ipo :: rest) rows = rows_loop rest (rows +:+ row_of ipo).
Proof.
  intros (Hsym & Hname & Hexch & Hprice & Hshares & Hoffer & Hstatus)%renderable_fields rest.
  apply has_str_getitem in Hsym as (sym & _ & Esym & Tsym).
  apply has_key_getitem in Hname as (name & _ & Ename & Tname).
  apply has_key_getitem in Hexch as (exch & _ & Eexch & Texch).
  apply has_key_getitem in Hprice as (price & _ & Eprice & Tprice).
  apply has_number_getitem in Hshares as (shares & Eshares & Tshares).
  apply has_number_getitem in Hoffer as (offer & Eoffer & Toffer).
  apply has_key_getitem in Hstatus as (status & _ & Estatus & Tstatus).
  cbn [rows_loop]. unfold row_of.
  rewrite Esym, Ename, Eexch, Eprice, Eshares, Eoffer, Estatus. cbn [mbind result_bind].
  rewrite Tshares, Toffer. cbn [mbind result_bind].
  by rewrite Tsym, Tname, Texch, Tprice, Tstatus.
Qed.

Lemma rows_loop_renderable (ipos : list dict) (rows : string) :
  Forall (fun ipo => renderable ipo = true) ipos ->
  rows_loop ipos rows = Ok (rows +:+ concat_all (row_of <$> ipos)).
Proof.
  intros H. revert rows. induction H as [| ipo rest Hipo _ IH]; intros rows.
  - cbn. by rewrite append_empty_r.
  - rewrite (rows_loop_step _ _ Hipo), IH, fmap_cons. cbn [concat_all foldr].
    by rewrite append_assoc.
Qed.

Lemma symbols_of_renderable (ipos : list dict) :
  Forall (fun ipo => renderable ipo = true) ipos ->
  symbols_of ipos = Ok (PStr <$> ((fun ipo => cell_text ipo "symbol") <$> ipos)).
Proof.
  induction 1 as [| ipo rest Hipo _ IH]; [done|].
  apply renderable_fields in Hipo as (Hsym & _).
  apply has_str_getitem in Hsym as (sym & _ & Esym & Tsym).
  cbn [symbols_of]. rewrite Esym, IH. cbn. by rewrite Tsym.
Qed.

Lemma str_join_strings (sep : string) (items : list string) :
  str_join sep (PStr <$> items) = Ok (String.concat sep items).
Proof.
  induction items as [| s rest IH]; [done|].
  rewrite fmap_cons. cbn [str_join String.concat].
  destruct rest as [| s' rest]; [done|].
  rewrite fmap_cons in *. by rewrite IH.
Qed.

(** The report of a list whose records can all be shown. *)
Lemma format_email_body_renderable (now : datetime) (ipos : list dict) :
  ipos <> [] -> Forall (fun ipo => renderable ipo = true) ipos ->
  format_email_body now ipos =
  Ok (populated_template (strftime_long now) (int_str (Z.of_nat (length ipos)))
        (int_format_comma MIN_OFFER_AMOUNT)
        (concat_all (row_of <$> ipos))
        (String.concat ", " ((fun ipo => cell_text ipo "symbol") <$> ipos))).
Proof.
  intros Hne H. destruct ipos as [| ipo rest]; [done|].
  unfold format_email_body.
  rewrite (rows_loop_renderable _ _ H), (symbols_of_renderable _ H).
  cbn [mbind result_bind]. by rewrite str_join_strings.
Qed.

(** Conversely, a report that is returned shows only such records. *)
Lemma rows_loop_inv (ipos : list dict) (rows text : string) :
  rows_loop ipos rows = Ok text ->
  Forall (fun ipo => has_key ipo "symbol" && has_key ipo "name" &&
                     has_key ipo "exchange" && has_key ipo "price" &&
                     has_number ipo "shares" && has_number ipo "offer_amount" &&
                     has_key ipo "status" = true) ipos.
Proof.
  revert rows. induction ipos as [| ipo rest IH]; intros rows; [done|].
  cbn [rows_loop]. unfold dict_getitem, has_key, has_number.
  destruct (ipo !! "symbol") as [symbol |] eqn:E1; [|done].
  destruct (ipo !! "name") as [name |] eqn:E2; [|done].
  destruct (ipo !! "exchange") as [exchange |] eqn:E3; [|done].
  destruct (ipo !! "price") as [price |] eqn:E4; [|done].
  destruct (ipo !! "shares") as [shares |] eqn:E5; [|done]. cbn [mbind result_bind].
  destruct (py_format_comma shares) as [shares_text |] eqn:Eshares; [|done].
  cbn [mbind result_bind].
  destruct (ipo !! "offer_amount") as [offer |] eqn:E6; [|done].
  cbn [mbind result_bind].
  destruct (py_format_comma offer) as [offer_text |] eqn:Eoffer; [|done].
  cbn [mbind result_bind].
  destruct (ipo !! "status") as [status |] eqn:E7; [|done]. cbn [mbind result_bind].
  intros Hrest%IH. constructor; [|done].
  rewrite E1, E2, E3, E4, E5, E6, E7.
  destruct shares; cbn in Eshares; try discriminate Eshares;
    destruct offer; cbn in Eoffer; try discriminate Eoffer; reflexivity.
Qed.

Lemma symbols_join_inv (sep : string) (ipos : list dict) (symbols : list pyval)
    (text : string) :
  symbols_of ipos = Ok symbols -> str_join sep symbols = Ok text ->
  Forall (fun ipo => has_str ipo "symbol" = true) ipos.
Proof.
  revert symbols text. induction ipos as [| ipo rest IH]; intros symbols text; [done|].
  cbn [symbols_of]. unfold dict_getitem.
  destruct (ipo !! "symbol") as [symbol |] eqn:E1; [|done]. cbn [mbind result_bind].
  destruct (symbols_of rest) as [others |]; [|done]. cbn [mbind result_bind].
  intros [= <-]. cbn [str_join].
  destruct symbol as [| | | | s | |]; try done.
  assert (Hipo : has_str ipo "symbol" = true) by (unfold has_str; by rewrite E1).
  destruct others as [| other others]; intros Hjoin.
  - constructor; [done|]. by eapply (IH []).
  - destruct (str_join sep (other :: others)) as [tail |] eqn:Etail; [|done].
    constructor; [done|]. by eapply IH.
Qed.

Lemma format_email_body_inv (now : datetime) (ipos : list dict) (body : string) :
  format_email_body now ipos = Ok body ->
  Forall (fun ipo => renderable ipo = true) ipos.
Proof.
  destruct ipos as [| ipo rest]; [done|]. unfold format_email_body.
  destruct (rows_loop (ipo :: rest) "") as [rows |] eqn:Erows; [|done].
  destruct (symbols_of (ipo :: rest)) as [symbols |] eqn:Esyms; [|done].
  cbn [mbind result_bind].
  destruct (str_join ", " symbols) as [summary |] eqn:Ejoin; [|done]. intros _.
  apply rows_loop_inv in Erows.
  pose proof (symbols_join_inv _ _ _ _ Esyms Ejoin) as Hsyms.
  apply Forall_forall. intros x Hx.
  rewrite Forall_forall in Erows, Hsyms.
  specialize (Erows x Hx). specialize (Hsyms x Hx).
  unfold renderable. rewrite !andb_true_iff in *. tauto.
Qed.

Lemma format_email_body_returns (now : datetime) (ipos : list dict) :
  returns (format_email_body now ipos) <->
  Forall (fun ipo => renderable ipo = true) ipos.
Proof.
  split.
  - intros [body Hbody]. by eapply format_email_body_inv.
  - intros H. destruct ipos as [| ipo rest]; [by eexists|].
    eexists. by apply format_email_body_renderable.
Qed.

Lemma markup_free_fields (ipo : dict) :
  markup_free ipo = true ->
  free_of "<" (cell_text ipo "symbol") = true /\
  free_of "<" (cell_text ipo "name") = true /\
  free_of "<" (cell_text ipo "exchange") = true /\
  free_of "<" (cell_text ipo "price") = true /\
  free_of "<" (amount_text ipo "shares") = true /\
  free_of "<" (amount_text ipo "offer_amount") = true /\
  free_of "<" (cell_text ipo "status") = true.
Proof. unfold markup_free. rewrite !andb_true_iff. tauto. Qed.

(** A row without markup in its fields closes every tag it opens and counts
    as one [<tr>]. *)
Lemma row_of_one_row (ipo : dict) :
  markup_free ipo = true ->
  closed_for "<tr>" (row_of ipo) = true /\ occurrences "<tr>" (row_of ipo) = 1%nat.
Proof.
  intros (H1 & H2 & H3 & H4 & H5 & H6 & H7)%markup_free_fields.
  unfold row_of, row_template. split.
  - repeat (apply closed_for_app; [piece_closed|]). piece_closed.
  - split_search. drop_free. eval_pieces. reflexivity.
Qed.

Lemma rows_one_each (ipos : list dict) :
  Forall (fun ipo => markup_free ipo = true) ipos ->
  closed_for "<tr>" (concat_all (row_of <$> ipos)) = true /\
  occurrences "<tr>" (concat_all (row_of <$> ipos)) = length ipos.
Proof.
  induction 1 as [| ipo rest Hipo _ [IHc IHn]]; [done|].
  destruct (row_of_one_row _ Hipo) as [Hc Hn].
  rewrite fmap_cons. cbn [concat_all foldr length]. split.
  - by apply closed_for_app.
  - rewrite occurrences_app by done. fold (concat_all (row_of <$> rest)).
    by rewrite Hn, IHn.
Qed.




(** The sentinel of a missing share count is a string, and a string does not
    take the thousands separator: the row of such a record cannot be built. *)
Lemma shares_sentinel_raises (now : datetime) (ipo : dict) (rest : list dict) :
  ipo !! "numberOfShares" = None ->
  format_email_body now (normalized ipo :: rest) = Raise ValueError.
Proof.
  intros Hshares. unfold format_email_body. cbn [rows_loop]. unfold dict_getitem.
  rewrite normalized_lookup_symbol, normalized_lookup_name,
    normalized_lookup_exchange, normalized_lookup_price, normalized_lookup_shares.
  by rewrite Hshares.
Qed.

End Report.

Ltac all_true :=
  repeat (apply List.Forall_cons; [vm_compute; reflexivity|]); apply List.Forall_nil.







Lemma missing_shares_filter_run :
  filter_large_ipos [missing_shares_event] = Ok [normalized missing_shares_event].
Proof.
  rewrite filter_large_ipos_decidable by (unfold missing_shares_event; all_true).
  by run_filter.
Qed.

(** C9 (the code departs from it): a raw event without [numberOfShares]
    passes the filter with ["N/A"] as its shares, and rendering the filter's
    output then raises [ValueError], at any time and on any runtime. *)
Theorem missing_shares_report_raises :
  missing_shares_event !! "numberOfShares" = None /\
  filter_large_ipos [missing_shares_event] = Ok [normalized missing_shares_event] /\
  normalized missing_shares_event !! "shares" = Some (PStr "N/A") /\
  (forall (RT : PyRuntime) (now : datetime),
     (out ← filter_large_ipos [missing_shares_event]; format_email_body now out)
     = Raise ValueError).
Proof.
  assert (Hnone : missing_shares_event !! "numberOfShares" = None) by reflexivity.
  split; [exact Hnone | split; [exact missing_shares_filter_run | split]].
  - by rewrite normalized_lookup_shares, Hnone.
  - intros RT now. rewrite missing_shares_filter_run, result_bind_ok.
    by apply shares_sentinel_raises.
Qed.

(** ** A run *)

Lemma io_bind_fst_ok {A B : Type} (m : io A) (a : A) (k : A -> io B) :
  snd m = Ok a -> fst (m ≫= k) = fst m ++ fst (k a).
Proof. destruct m as [t r]. cbn. intros ->. unfold mbind, io_bind. by destruct (k a). Qed.

Lemma io_bind_snd_ok {A B : Type} (m : io A) (a : A) (k : A -> io B) :
  snd m = Ok a -> snd (m ≫= k) = snd (k a).
Proof. destruct m as [t r]. cbn. intros ->. unfold mbind, io_bind. by destruct (k a). Qed.

Lemma io_bind_fst_raise {A B : Type} (m : io A) (e : exn) (k : A -> io B) :
  snd m = Raise e -> fst (m ≫= k) = fst m.
Proof. destruct m as [t r]. cbn. by intros ->. Qed.

Lemma io_bind_snd_raise {A B : Type} (m : io A) (e : exn) (k : A -> io B) :
  snd m = Raise e -> snd (m ≫= k) = Raise e.
Proof. destruct m as [t r]. cbn. by intros ->. Qed.

Lemma email_attempts_app (t t' : list effect) :
  email_attempts (t ++ t') = email_attempts t ++ email_attempts t'.
Proof. apply omap_app. Qed.

Lemma printed_app (t t' : list effect) :
  printed (t ++ t') = printed t ++ printed t'.
Proof. apply omap_app. Qed.

(** Following a run through [x ← m; k] when [m] returns. *)
Ltac settle := first [ reflexivity | eassumption ].

Ltac step_run :=
  repeat first
    [ erewrite io_bind_snd_ok by settle; cbn beta
    | erewrite io_bind_fst_ok by settle; cbn beta
    | erewrite io_bind_snd_raise by settle
    | erewrite io_bind_fst_raise by settle ].

(** The fetch never raises: it returns [fetched w], after the request and at
    most one line of log, and sends no mail. *)
Lemma get_todays_ipos_run (w : world) :
  snd (get_todays_ipos w) = Ok (fetched w) /\
  email_attempts (fst (get_todays_ipos w)) = [].
Proof.
  unfold get_todays_ipos, fetched, raise_for_status, error_status, perform, print.
  destruct (http w) as [e | resp]; [done|].
  destruct (400 <=? status_code resp) eqn:E400;
    destruct (status_code resp <? 500) eqn:E500;
    destruct (500 <=? status_code resp) eqn:E5;
    destruct (status_code resp <? 600) eqn:E600;
    cbn [andb]; try done; lia.
Qed.

Section RunFacts.
Context {RT : PyRuntime}.

(** The listing of the qualifying events prints and nothing else, and does
    not raise on what the filter returns. *)
Lemma print_qualifying_run (ipos : list dict) :
  Forall (fun q => has_key q "symbol" && has_key q "name" &&
                   has_number q "offer_amount" = true) ipos ->
  snd (print_qualifying ipos) = Ok tt /\
  email_attempts (fst (print_qualifying ipos)) = [].
Proof.
  induction 1 as [| q rest Hq _ [IHr IHt]]; [done|].
  apply andb_true_iff in Hq as [[Hsym Hname]%andb_true_iff Hoffer].
  apply has_key_getitem in Hsym as (sym & _ & Esym & _).
  apply has_key_getitem in Hname as (name & _ & Ename & _).
  apply has_number_getitem in Hoffer as (offer & Eoffer & Toffer).
  cbn [print_qualifying]. rewrite Esym, Ename, Eoffer. unfold lift, print.
  split; step_run; [exact IHr|].
  by rewrite !email_attempts_app, IHt.
Qed.

Lemma normalized_listable (ipo : dict) :
  qualifies ipo = true ->
  has_key (normalized ipo) "symbol" && has_key (normalized ipo) "name" &&
  has_number (normalized ipo) "offer_amount" = true.
Proof.
  intros Hq. unfold has_key, has_number.
  rewrite normalized_lookup_symbol, normalized_lookup_name,
    normalized_lookup_offer_amount. by apply qualifies_is_number.
Qed.

Lemma print_qualifying_filtered (xs out : list dict) :
  filter_large_ipos xs = Ok out ->
  snd (print_qualifying out) = Ok tt /\
  email_attempts (fst (print_qualifying out)) = [].
Proof.
  intros [_ ->]%filter_large_ipos_inv. apply print_qualifying_run.
  apply Forall_fmap, Forall_forall. intros ipo [_ Hq]%list_elem_of_In%filter_In.
  by apply normalized_listable.
Qed.

(** The listing block of [main]: nothing for no event, the heading and the
    lines otherwise. *)
Lemma listing_run (xs out : list dict) :
  filter_large_ipos xs = Ok out ->
  snd (match out return io unit with
       | [] => mret tt
       | _ :: _ => print (nl +:+ "Qualifying IPOs:");; print_qualifying out
       end) = Ok tt /\
  email_attempts
    (fst (match out return io unit with
          | [] => mret tt
          | _ :: _ => print (nl +:+ "Qualifying IPOs:");; print_qualifying out
          end)) = [].
Proof.
  intros [Hr Ht]%print_qualifying_filtered. destruct out as [| q rest]; [done|].
  unfold print. split; step_run; [exact Hr|].
  by rewrite email_attempts_app, Ht.
Qed.

(** [send_email] opens one session, with the subject and the body it was
    given, and reports whether the message was accepted; it never raises. *)
Lemma send_email_run (w : world) (subject body : string) :
  snd (send_email w subject body) = Ok (delivered w) /\
  email_attempts (fst (send_email w subject body)) = [(subject, body)].
Proof. unfold send_email, delivered, perform, print. by destruct (smtp w). Qed.

Lemma send_email_guidance (w : world) (subject body : string) :
  smtp w = AuthenticationFailed ->
  printed (fst (send_email w subject body)) = guidance.
Proof. unfold send_email, perform, print. by intros ->. Qed.

Lemma main_filter_raises (w : world) (e : exn) :
  filter_large_ipos (fetched w) = Raise e ->
  snd (main w) = Raise e /\ email_attempts (fst (main w)) = [].
Proof.
  intros Hq. unfold main.
  destruct (get_todays_ipos_run w) as (Ef & Htf).
  unfold print, lift. split; step_run; [done|].
  rewrite !email_attempts_app, Htf. reflexivity.
Qed.

Lemma main_render_raises (w : world) (out : list dict) (e : exn) :
  filter_large_ipos (fetched w) = Ok out ->
  format_email_body (now_body w) out = Raise e ->
  snd (main w) = Raise e /\ email_attempts (fst (main w)) = [].
Proof.
  intros Hq Hbody. unfold main.
  destruct (get_todays_ipos_run w) as (Ef & Htf).
  destruct (listing_run _ _ Hq) as (El & Hl).
  unfold print, lift in *.
  split; step_run; [done|].
  rewrite !email_attempts_app, Htf, Hl. reflexivity.
Qed.

Lemma main_sends (w : world) (out : list dict) (body : string) :
  filter_large_ipos (fetched w) = Ok out ->
  format_email_body (now_body w) out = Ok body ->
  snd (main w) = Ok (if delivered w then 0 else 1) /\
  email_attempts (fst (main w)) = [(subject_for w (length out), body)] /\
  (smtp w = AuthenticationFailed ->
   forall line, line ∈ guidance -> line ∈ printed (fst (main w))).
Proof.
  intros Hq Hbody. unfold main.
  destruct (get_todays_ipos_run w) as (Ef & Htf).
  destruct (listing_run _ _ Hq) as (El & Hl).
  destruct (send_email_run w (subject_for w (length out)) body) as (Es & Hs).
  unfold print, lift, subject_for in *.
  split; [| split].
  - step_run. destruct (delivered w); step_run; reflexivity.
  - step_run. rewrite !email_attempts_app, Htf, Hl, Hs.
    destruct (delivered w); step_run; reflexivity.
  - intros Hauth line Hline. step_run.
    rewrite !printed_app, (send_email_guidance _ _ _ Hauth).
    rewrite !elem_of_app. tauto.
Qed.

End RunFacts.

(** ** The claims about the fetch and the run *)

(** C7, as stated, fails for a status outside 2xx that is no error to
    [raise_for_status]: on a 300 response the fetch logs nothing and returns
    the calendar of the body, three events, not the empty list. *)
Lemma non_2xx_status_not_degraded :
  (exists resp, http multiple_choices_world = inr resp /\
                status_code resp = 300 /\
                ~ (200 <= status_code resp < 300)) /\
  get_todays_ipos multiple_choices_world =
    ([request_of multiple_choices_world], Ok MOCK_IPO_DATA) /\
  snd (get_todays_ipos multiple_choices_world) <> Ok [].
Proof.
  split; [| split].
  - eexists. split; [reflexivity|]. split; [reflexivity|]. cbn. lia.
  - reflexivity.
  - discriminate.
Qed.

(** C7 (amended): the fetch never raises. When the request fails with a
    [RequestException] (a timeout, a connection or DNS error) or the response
    has a status from 400 to 599, it logs one line and returns the empty
    list; otherwise it logs nothing and returns the calendar of the response,
    which is the empty list when no events are listed. *)
Theorem fetch_degrades_to_empty (w : world) :
  snd (get_todays_ipos w) = Ok (fetched w) /\
  (forall e, http w = inl e ->
     get_todays_ipos w =
       ([request_of w;
         Print ("Error fetching IPO data: " +:+ request_exception_str e)],
        Ok [])) /\
  (forall resp, http w = inr resp -> 400 <= status_code resp < 600 ->
     exists msg,
       get_todays_ipos w =
         ([request_of w; Print ("Error fetching IPO data: " +:+ msg)], Ok [])) /\
  (forall resp, http w = inr resp -> ~ (400 <= status_code resp < 600) ->
     get_todays_ipos w = ([request_of w], Ok (default [] (ipoCalendar resp))) /\
     (ipoCalendar resp = None \/ ipoCalendar resp = Some [] ->
      get_todays_ipos w = ([request_of w], Ok []))).
Proof.
  split; [apply get_todays_ipos_run|].
  unfold get_todays_ipos, raise_for_status, request_of, perform, print.
  split; [| split].
  - by intros e ->.
  - intros resp -> Hstatus.
    destruct (Z.ltb_spec (status_code resp) 500) as [H500 | H500].
    + replace (400 <=? status_code resp) with true by (symmetry; apply Z.leb_le; lia).
      by eexists.
    + replace (status_code resp <? 500) with false by (symmetry; apply Z.ltb_ge; lia).
      rewrite andb_false_r.
      replace (500 <=? status_code resp) with true by (symmetry; apply Z.leb_le; lia).
      replace (status_code resp <? 600) with true by (symmetry; apply Z.ltb_lt; lia).
      by eexists.
  - intros resp -> Hstatus.
    assert (E1 : (400 <=? status_code resp) && (status_code resp <? 500) = false).
    { apply andb_false_iff. rewrite Z.leb_gt, Z.ltb_ge. lia. }
    assert (E2 : (500 <=? status_code resp) && (status_code resp <? 600) = false).
    { apply andb_false_iff. rewrite Z.leb_gt, Z.ltb_ge. lia. }
    rewrite E1, E2. split; [done|]. by intros [-> | ->].
Qed.

(** The amended C7 at a request that times out. *)
Lemma fetch_degrades_to_empty_witness :
  http timeout_world = inl (Timeout "Read timed out. (read timeout=30)") /\
  get_todays_ipos timeout_world =
    ([request_of timeout_world;
      Print "Error fetching IPO data: Read timed out. (read timeout=30)"],
     Ok []).
Proof.
  split; [reflexivity|].
  exact (proj1 (proj2 (fetch_degrades_to_empty timeout_world)) _ eq_refl).
Defined.

Lemma exit_status_result (run : io Z) :
  exit_status run = match snd run with Ok code => code | Raise _ => 1 end.
Proof. by destruct run as [t [code | e]]. Qed.

Section Run_claims.
Context {RT : PyRuntime}.

(** The three ways a run can go. *)
Lemma main_cases (w : world) :
  (exists e, snd (main w) = Raise e /\ email_attempts (fst (main w)) = [] /\
             (filter_large_ipos (fetched w) = Raise e \/
              exists out, filter_large_ipos (fetched w) = Ok out /\
                          format_email_body (now_body w) out = Raise e)) \/
  (exists out body,
     filter_large_ipos (fetched w) = Ok out /\
     format_email_body (now_body w) out = Ok body /\
     snd (main w) = Ok (if delivered w then 0 else 1) /\
     email_attempts (fst (main w)) = [(subject_for w (length out), body)] /\
     (smtp w = AuthenticationFailed ->
      forall line, line ∈ guidance -> line ∈ printed (fst (main w)))).
Proof.
  destruct (filter_large_ipos (fetched w)) as [out | e] eqn:Hq.
  - destruct (format_email_body (now_body w) out) as [body | e] eqn:Hbody.
    + right. exists out, body.
      destruct (main_sends w out body Hq Hbody) as (Hr & Ht & Hg). by repeat split.
    + left. exists e. destruct (main_render_raises w out e Hq Hbody) as [Hr Ht].
      repeat split; [done | done |]. right. by exists out.
  - left. exists e. destruct (main_filter_raises w e Hq) as [Hr Ht].
    repeat split; [done | done |]. by left.
Qed.

(** C6 (amended): the exit status is 0 when the mail is sent and accepted,
    and 1 otherwise, also when an exception ends the run before the mail. A
    failed or empty fetch never prevents the attempt: the mail then carries
    the "no events" report. [main] calls [send_email], once, exactly when the
    filter and the rendering of its output return; an exception of either
    ends the run before. Whenever the mail is attempted and authentication
    fails, the exit status is 1 and the guidance is printed, whatever the
    number of qualifying events. *)
Theorem run_exit_status (w : world) :
  (exit_status (main w) = 0 \/ exit_status (main w) = 1) /\
  (exit_status (main w) = 0 <->
   email_attempts (fst (main w)) <> [] /\ smtp w = Delivered) /\
  (email_attempts (fst (main w)) <> [] <->
   exists out body,
     filter_large_ipos (fetched w) = Ok out /\
     format_email_body (now_body w) out = Ok body) /\
  (forall out body,
     filter_large_ipos (fetched w) = Ok out ->
     format_email_body (now_body w) out = Ok body ->
     email_attempts (fst (main w)) = [(subject_for w (length out), body)]) /\
  ((exists e, http w = inl e) -> fetched w = []) /\
  (fetched w = [] ->
   email_attempts (fst (main w)) =
     [(subject_for w 0, empty_template (strftime_long (now_body w)) "200,000,000")]) /\
  (smtp w = AuthenticationFailed ->
   email_attempts (fst (main w)) <> [] ->
   exit_status (main w) = 1 /\
   forall line, line ∈ guidance -> line ∈ printed (fst (main w))).
Proof.
  rewrite exit_status_result.
  assert (Hdelivered : delivered w = true <-> smtp w = Delivered)
    by (unfold delivered; destruct (smtp w); intuition congruence).
  destruct (main_cases w)
    as [(e & Hr & Ht & Hwhy) | (out & body & Hq & Hbody & Hr & Ht & Hg)];
    rewrite Hr, Ht.
  - split; [by right|]. split; [intuition congruence|]. split.
    { split; [done|]. intros (out & body & Hq & Hbody).
      destruct Hwhy as [Hw | (out' & Hw & Hw')]; congruence. }
    split.
    { intros out body Hq Hbody.
      destruct Hwhy as [Hw | (out' & Hw & Hw')]; congruence. }
    split; [by intros [e' He']; unfold fetched; rewrite He'|].
    split; [|done].
    intros Hempty. rewrite Hempty in Hwhy.
    destruct Hwhy as [Hw | (out' & [= <-] & Hw')]; discriminate.
  - split; [destruct (delivered w); [by left | by right] |]. split.
    { destruct (delivered w) eqn:Hd.
      - split; [intros _; split; [done | by apply Hdelivered] | done].
      - split; [done|]. intros [_ Hs%Hdelivered]. congruence. }
    split; [split; [by exists out, body | done] |]. split.
    { intros out' body' Hq' Hbody'. congruence. }
    split; [by intros [e' He']; unfold fetched; rewrite He'|]. split.
    { intros Hempty. rewrite Hempty in Hq. injection Hq as <-.
      injection Hbody as <-. reflexivity. }
    intros Hauth _. split; [|by apply Hg].
    unfold delivered. by rewrite Hauth.
Qed.

End Run_claims.

Lemma unordered_run :
  email_attempts
    (fst (main (RT:=sample_runtime) (world_with unordered_events Delivered))) = [] /\
  snd (main (RT:=sample_runtime) (world_with unordered_events Delivered))
    = Raise TypeError.
Proof.
  destruct (main_filter_raises (RT:=sample_runtime)
              (world_with unordered_events Delivered) TypeError
              unordered_filter_run) as [Hr Ht].
  by split.
Qed.

(** C6, as stated, fails: when the calendar holds a record whose monetary
    value is a string, the filter raises [TypeError] and the run ends without
    a mail attempt, although the mail session would have accepted the
    message. *)
Lemma run_without_mail_attempt :
  fetched (world_with unordered_events Delivered) = unordered_events /\
  smtp (world_with unordered_events Delivered) = Delivered /\
  email_attempts
    (fst (main (RT:=sample_runtime) (world_with unordered_events Delivered))) = [] /\
  exit_status (main (RT:=sample_runtime) (world_with unordered_events Delivered)) = 1.
Proof.
  destruct unordered_run as [Ht Hr].
  split; [reflexivity | split; [reflexivity | split; [exact Ht |]]].
  by rewrite exit_status_result, Hr.
Qed.

(** The amended C6 at a run whose request times out and whose mail login is
    rejected. *)
Lemma run_exit_status_witness :
  (exists e, http timeout_world = inl e) /\
  fetched timeout_world = [] /\
  smtp timeout_world = AuthenticationFailed /\
  email_attempts (fst (main (RT:=sample_runtime) timeout_world)) =
    [(subject_for timeout_world 0,
      empty_template (strftime_long (now_body timeout_world)) "200,000,000")] /\
  exit_status (main (RT:=sample_runtime) timeout_world) = 1.
Proof.
  assert (Hfail : exists e, http timeout_world = inl e) by (eexists; reflexivity).
  destruct (run_exit_status (RT:=sample_runtime) timeout_world)
    as (_ & _ & _ & _ & Hfetch & Hmail & Hauth).
  pose proof (Hfetch Hfail) as Hempty. pose proof (Hmail Hempty) as Hsent.
  split; [exact Hfail | split; [exact Hempty | split; [reflexivity |]]].
  split; [exact Hsent|].
  apply (Hauth eq_refl). rewrite Hsent. discriminate.
Defined.

(** ** Further properties of the filter *)


(** X1: the filter returns one qualifying event for each record that
    qualifies and nothing else: its output is as long as the number of
    qualifying records, never longer than the input, as long as the input
    only when every record qualifies, and empty exactly when none does. *)
Theorem filter_output_length (xs out : list dict) :
  filter_large_ipos xs = Ok out ->
  length out = length (List.filter qualifies xs) /\
  (length out <= length xs)%nat /\
  (length out = length xs <-> Forall (fun ipo => qualifies ipo = true) xs) /\
  (out = [] <-> Forall (fun ipo => qualifies ipo = false) xs).
Proof.
  intros [_ ->]%filter_large_ipos_inv. rewrite length_fmap.
  split; [done|]. clear. induction xs as [| ipo rest (IHle & IHall & IHnil)].
  - repeat split; by constructor.
  - cbn [List.filter]. destruct (qualifies ipo) eqn:Hq; cbn [length fmap list_fmap].
    + split; [lia|]. split.
      * rewrite Forall_cons. split; [intros H | intros [_ H]].
        -- split; [done|]. apply IHall. lia.
        -- apply IHall in H. lia.
      * split; [done|]. intros H%Forall_cons. destruct H. congruence.
    + split; [lia|]. split.
      * split; [lia|]. intros [H _]%Forall_cons. congruence.
      * rewrite Forall_cons. rewrite IHnil. tauto.
Qed.

(** X1 at the mock data. *)
Lemma filter_output_length_witness :
  filter_large_ipos MOCK_IPO_DATA = Ok mock_qualifying /\
  length mock_qualifying = 2%nat /\
  (length mock_qualifying <= length MOCK_IPO_DATA)%nat.
Proof.
  split; [exact mock_filter_run|].
  destruct (filter_output_length MOCK_IPO_DATA mock_qualifying mock_filter_run)
    as (_ & Hle & _).
  split; [reflexivity | exact Hle].
Defined.

Lemma normalized_dom (ipo : dict) :
  dom (normalized ipo) = list_to_set output_keys.
Proof. unfold normalized. by rewrite dom_list_to_map_L. Qed.

(** X2: every record the filter returns has exactly the eight keys symbol,
    name, exchange, price, shares, offer_amount, status and date, whatever
    keys the raw event had: a key is in the record exactly when it is one of
    these, so in particular totalSharesValue and numberOfShares are gone. *)
Theorem filter_output_keys (xs out : list dict) :
  filter_large_ipos xs = Ok out ->
  Forall (fun q : dict =>
            dom q = list_to_set output_keys /\
            (forall key, is_Some (q !! key) <-> key ∈ output_keys) /\
            q !! "totalSharesValue" = None /\
            q !! "numberOfShares" = None) out.
Proof.
  intros [_ ->]%filter_large_ipos_inv. apply Forall_fmap, Forall_forall.
  intros ipo _. cbn beta. unfold compose.
  split; [apply normalized_dom|]. split; [| split; lookup_literal].
  intros key. by rewrite <- elem_of_dom, normalized_dom, elem_of_list_to_set.
Qed.

(** X2 at the mock data. *)
Lemma filter_output_keys_witness :
  filter_large_ipos MOCK_IPO_DATA = Ok mock_qualifying /\
  Forall (fun q : dict => q !! "numberOfShares" = None) mock_qualifying.
Proof.
  split; [exact mock_filter_run|].
  eapply Forall_impl;
    [exact (filter_output_keys MOCK_IPO_DATA mock_qualifying mock_filter_run)|].
  intros q (_ & _ & _ & H). exact H.
Defined.

Lemma same_on_source (a b : dict) :
  same_on source_keys a b ->
  monetary_value a = monetary_value b /\ normalized a = normalized b.
Proof.
  unfold same_on, source_keys. rewrite !Forall_cons.
  intros (H1 & H2 & H3 & H4 & H5 & H6 & H7 & H8 & _).
  unfold normalized, monetary_value. by rewrite H1, H2, H3, H4, H5, H6, H7, H8.
Qed.

Lemma same_on_source_loop (xs ys acc : list dict) :
  Forall2 (same_on source_keys) xs ys ->
  filter_loop xs acc = filter_loop ys acc.
Proof.
  intros H. revert acc. induction H as [| a b xs ys Hab _ IH]; intros acc; [done|].
  destruct (same_on_source _ _ Hab) as [Hv Hn].
  rewrite !filter_loop_cons. unfold threshold_test. rewrite Hv, Hn.
  destruct (if py_truthy (monetary_value b)
            then py_ge_int (monetary_value b) MIN_OFFER_AMOUNT
            else Ok false) as [[] |]; cbn; [apply IH | apply IH | done].
Qed.

Lemma same_on_insert (keys : list string) (key : string) (v : pyval) (d : dict) :
  key ∉ keys -> same_on keys (<[key := v]> d) d.
Proof.
  intros Hkey. apply Forall_forall. intros k Hk.
  apply lookup_insert_ne. by intros ->.
Qed.

Lemma same_on_delete (keys : list string) (key : string) (d : dict) :
  key ∉ keys -> same_on keys (delete key d) d.
Proof.
  intros Hkey. apply Forall_forall. intros k Hk.
  apply lookup_delete_ne. by intros ->.
Qed.

(** X3: the filter reads nothing of a raw event but its eight source keys:
    two lists whose records agree, one by one, on these keys give the same
    result, output or exception; so adding, changing or removing any other
    key in every record changes nothing. *)
Theorem filter_reads_source_keys :
  (forall xs ys : list dict,
     Forall2 (same_on source_keys) xs ys ->
     filter_large_ipos xs = filter_large_ipos ys) /\
  (forall (key : string) (v : pyval) (xs : list dict),
     key ∉ source_keys ->
     filter_large_ipos (<[key := v]> <$> xs) = filter_large_ipos xs) /\
  (forall (key : string) (xs : list dict),
     key ∉ source_keys ->
     filter_large_ipos (delete key <$> xs) = filter_large_ipos xs).
Proof.
  split; [| split].
  - intros xs ys H. by apply same_on_source_loop.
  - intros key v xs Hkey. apply same_on_source_loop, Forall2_fmap_l.
    apply Forall_Forall2_diag, Forall_forall. intros d _.
    by apply same_on_insert.
  - intros key xs Hkey. apply same_on_source_loop, Forall2_fmap_l.
    apply Forall_Forall2_diag, Forall_forall. intros d _.
    by apply same_on_delete.
Qed.

(** X3 at the mock data, with a currency added to every record. *)
Lemma filter_reads_source_keys_witness :
  ("currency" ∉ source_keys) /\
  filter_large_ipos (<["currency" := PStr "USD"]> <$> MOCK_IPO_DATA) =
  filter_large_ipos MOCK_IPO_DATA.
Proof.
  assert (H : "currency" ∉ source_keys)
    by (unfold source_keys; rewrite !not_elem_of_cons; repeat split;
        [discriminate.. | apply not_elem_of_nil]).
  split; [exact H|].
  exact (proj1 (proj2 filter_reads_source_keys) "currency" (PStr "USD")
           MOCK_IPO_DATA H).
Defined.




(** X5: for a number, the test on its truth changes nothing: the filter
    decides by the comparison with the threshold alone, because a number
    that is false (zero, [0.0], [False]) is below the threshold anyway. The
    test only matters for what is no number. *)
Theorem guard_redundant_for_numbers (ipo : dict) :
  is_number (monetary_value ipo) = true ->
  threshold_test ipo = py_ge_int (monetary_value ipo) MIN_OFFER_AMOUNT.
Proof.
  intros Hnum. unfold threshold_test.
  destruct (py_truthy (monetary_value ipo)) eqn:Ht; [done|].
  rewrite py_ge_int_number by done.
  destruct (numeric_compare (monetary_value ipo) MIN_OFFER_AMOUNT)
    as [[] |] eqn:Hc; try done.
  - rewrite (numerically_ge_truthy _ MIN_OFFER_AMOUNT) in Ht; [done | done | by left].
  - rewrite (numerically_ge_truthy _ MIN_OFFER_AMOUNT) in Ht; [done | done | by right].
Qed.

(** X5 at the first mock record. *)
Lemma guard_redundant_for_numbers_witness :
  is_number (monetary_value (default ∅ (head MOCK_IPO_DATA))) = true /\
  threshold_test (default ∅ (head MOCK_IPO_DATA)) = Ok true.
Proof.
  assert (H : is_number (monetary_value (default ∅ (head MOCK_IPO_DATA))) = true)
    by (vm_compute; reflexivity).
  split; [exact H|].
  rewrite (guard_redundant_for_numbers _ H). vm_compute. reflexivity.
Defined.

(** ** Further properties of the filter and the report together *)

Section Pipeline.
Context {RT : PyRuntime}.

Lemma renderable_normalized (ipo : dict) :
  qualifies ipo = true -> renderable (normalized ipo) = presentable ipo.
Proof.
  intros Hq%qualifies_is_number. unfold renderable, presentable.
  unfold has_str, has_key, has_number.
  rewrite normalized_lookup_symbol, normalized_lookup_name,
    normalized_lookup_exchange, normalized_lookup_price,
    normalized_lookup_shares, normalized_lookup_offer_amount,
    normalized_lookup_status, Hq.
  destruct (ipo !! "symbol") as [[] |]; destruct (ipo !! "numberOfShares");
    cbn; by rewrite ?andb_true_r.
Qed.

Lemma renderable_filtered (xs : list dict) :
  Forall (fun q => renderable q = true) (normalized <$> List.filter qualifies xs) <->
  Forall (fun ipo => qualifies ipo = true -> presentable ipo = true) xs.
Proof.
  rewrite Forall_fmap, !Forall_forall. unfold compose. split.
  - intros H ipo Hin Hq. rewrite <- (renderable_normalized _ Hq).
    apply H, list_elem_of_In, filter_In. by rewrite <- list_elem_of_In.
  - intros H ipo [Hin Hq]%list_elem_of_In%filter_In.
    rewrite (renderable_normalized _ Hq). apply H; [by apply list_elem_of_In | done].
Qed.

(** X6: the filter followed by the report returns a document exactly when
    every monetary value is false or a number and every record that
    qualifies has a share count that is a number and a symbol that is a
    string or absent. *)
Theorem pipeline_returns (now : datetime) (xs : list dict) :
  returns (out ← filter_large_ipos xs; format_email_body now out) <->
  Forall (fun ipo => decidable_value ipo = true) xs /\
  Forall (fun ipo => qualifies ipo = true -> presentable ipo = true) xs.
Proof.
  destruct (filter_large_ipos_cases xs) as [[Hdec ->] | [Hbad ->]].
  - rewrite result_bind_ok, format_email_body_returns, renderable_filtered. tauto.
  - split; [by intros [body Hbody]|]. intros [Hdec _].
    apply Exists_exists in Hbad as (ipo & Hin & Hipo).
    rewrite Forall_forall in Hdec. specialize (Hdec ipo Hin). congruence.
Qed.

Lemma rows_loop_error (ipos : list dict) (rows : string) (e : exn) :
  Forall (fun q : dict => Forall (fun key => is_Some (q !! key)) row_keys) ipos ->
  rows_loop ipos rows = Raise e -> e = TypeError \/ e = ValueError.
Proof.
  intros H. revert rows. induction H as [| q rest Hq _ IH]; intros rows; [done|].
  unfold row_keys in Hq. rewrite !Forall_cons in Hq.
  destruct Hq as ([v1 E1] & [v2 E2] & [v3 E3] & [v4 E4] & [v5 E5] & [v6 E6] &
                  [v7 E7] & _).
  cbn [rows_loop]. unfold dict_getitem. rewrite E1, E2, E3, E4, E5, E6, E7.
  cbn [mbind result_bind].
  destruct (py_format_comma v5) as [shares_text |] eqn:Eshares.
  - cbn [mbind result_bind].
    destruct (py_format_comma v6) as [offer_text |] eqn:Eoffer.
    + cbn [mbind result_bind]. apply IH.
    + cbn [mbind result_bind]. intros [= <-].
      destruct v6; cbn in Eoffer; try discriminate Eoffer;
        injection Eoffer as <-; tauto.
  - cbn [mbind result_bind]. intros [= <-].
    destruct v5; cbn in Eshares; try discriminate Eshares;
      injection Eshares as <-; tauto.
Qed.

Lemma symbols_of_returns (ipos : list dict) :
  Forall (fun q : dict => Forall (fun key => is_Some (q !! key)) row_keys) ipos ->
  exists symbols, symbols_of ipos = Ok symbols.
Proof.
  induction 1 as [| q rest Hq _ [symbols IH]]; [by eexists|].
  unfold row_keys in Hq. apply Forall_cons in Hq as [[v E] _].
  cbn [symbols_of]. unfold dict_getitem. rewrite E, IH. by eexists.
Qed.

Lemma str_join_error (sep : string) (items : list pyval) (e : exn) :
  str_join sep items = Raise e -> e = TypeError.
Proof.
  induction items as [| item rest IH]; [done|]. cbn [str_join].
  destruct item; try by intros [= <-].
  destruct rest as [| item' rest]; [done|].
  destruct (str_join sep (item' :: rest)) as [tail |]; [done|].
  cbn [mbind result_bind]. intros [= <-]. by apply IH.
Qed.

Lemma format_email_body_error (now : datetime) (ipos : list dict) (e : exn) :
  Forall (fun q : dict => Forall (fun key => is_Some (q !! key)) row_keys) ipos ->
  format_email_body now ipos = Raise e -> e = TypeError \/ e = ValueError.
Proof.
  intros H. unfold format_email_body. destruct ipos as [| q rest]; [done|].
  destruct (rows_loop (q :: rest) "") as [rows |] eqn:Erows.
  - destruct (symbols_of_returns _ H) as [symbols ->]. cbn [mbind result_bind].
    destruct (str_join ", " symbols) as [summary |] eqn:Ejoin; [done|].
    cbn [mbind result_bind]. intros [= <-]. left. by eapply str_join_error.
  - cbn [mbind result_bind]. intros [= <-]. by eapply rows_loop_error.
Qed.

Lemma normalized_row_keys (ipo : dict) :
  Forall (fun key => is_Some (normalized ipo !! key)) row_keys.
Proof.
  unfold row_keys. repeat (apply List.Forall_cons; [eexists; lookup_literal|]).
  apply List.Forall_nil.
Qed.

(** X7: whatever the list of raw events, the filter followed by the report
    never raises [KeyError]: the filter writes every key a row reads. When
    the two do not return a document they raise [TypeError] or [ValueError]. *)
Theorem pipeline_never_key_error (now : datetime) (xs : list dict) :
  (forall key,
     (out ← filter_large_ipos xs; format_email_body now out) <> Raise (KeyError key)) /\
  (returns (out ← filter_large_ipos xs; format_email_body now out) \/
   (out ← filter_large_ipos xs; format_email_body now out) = Raise TypeError \/
   (out ← filter_large_ipos xs; format_email_body now out) = Raise ValueError).
Proof.
  assert (H : returns (out ← filter_large_ipos xs; format_email_body now out) \/
              (out ← filter_large_ipos xs; format_email_body now out) = Raise TypeError \/
              (out ← filter_large_ipos xs; format_email_body now out) = Raise ValueError).
  { destruct (filter_large_ipos_cases xs) as [[_ ->] | [_ ->]]; [|by right; left].
    rewrite result_bind_ok.
    destruct (format_email_body now (normalized <$> List.filter qualifies xs))
      as [body | e] eqn:E; [left; by eexists|].
    apply format_email_body_error in E as [-> | ->]; [tauto | tauto |].
    apply Forall_fmap, Forall_forall. intros ipo _. apply normalized_row_keys. }
  split; [|exact H].
  intros key Hkey. rewrite Hkey in H.
  destruct H as [[body H] | [H | H]]; discriminate.
Qed.

End Pipeline.

(** X6 at the mock data. *)
Lemma pipeline_returns_witness :
  Forall (fun ipo => decidable_value ipo = true) MOCK_IPO_DATA /\
  Forall (fun ipo => qualifies ipo = true -> presentable ipo = true) MOCK_IPO_DATA /\
  returns (out ← filter_large_ipos MOCK_IPO_DATA;
           format_email_body (RT:=sample_runtime) morning out).
Proof.
  assert (H : Forall (fun ipo => qualifies ipo = true -> presentable ipo = true)
                MOCK_IPO_DATA)
    by (unfold MOCK_IPO_DATA;
        repeat (apply List.Forall_cons; [intros _; vm_compute; reflexivity|]);
        apply List.Forall_nil).
  split; [exact mock_decidable | split; [exact H|]].
  exact (proj2 (pipeline_returns (RT:=sample_runtime) morning MOCK_IPO_DATA)
           (conj mock_decidable H)).
Defined.

(** ** Further properties of the report *)

Lemma contains_unfold (needle s : string) :
  contains needle s =
  starts_with needle s ||
  match s with
  | "" => false
  | String _ rest => contains needle rest
  end.
Proof. by destruct s. Qed.

Lemma starts_with_here (needle rest : string) :
  starts_with needle (needle +:+ rest) = true.
Proof.
  induction needle as [| c needle IH]; [done|].
  rewrite append_cons. cbn [starts_with]. by rewrite Ascii.eqb_refl.
Qed.

Lemma contains_here (needle rest : string) :
  contains needle (needle +:+ rest) = true.
Proof. by rewrite contains_unfold, starts_with_here. Qed.

Ltac find_piece :=
  repeat first [ apply contains_here | apply contains_app_r ].

Section Report_more.
Context {RT : PyRuntime}.

Lemma same_on_rows_loop (xs ys : list dict) (rows : string) :
  Forall2 (same_on row_keys) xs ys -> rows_loop xs rows = rows_loop ys rows.
Proof.
  intros H. revert rows. induction H as [| a b xs ys Hab _ IH]; intros rows; [done|].
  unfold same_on, row_keys in Hab. rewrite !Forall_cons in Hab.
  destruct Hab as (H1 & H2 & H3 & H4 & H5 & H6 & H7 & _).
  cbn [rows_loop]. unfold dict_getitem. rewrite H1, H2, H3, H4, H5, H6, H7.
  destruct (b !! "symbol"); [|done]. destruct (b !! "name"); [|done].
  destruct (b !! "exchange"); [|done]. destruct (b !! "price"); [|done].
  destruct (b !! "shares") as [shares |]; [|done]. cbn [mbind result_bind].
  destruct (py_format_comma shares); [|done]. cbn [mbind result_bind].
  destruct (b !! "offer_amount") as [offer |]; [|done]. cbn [mbind result_bind].
  destruct (py_format_comma offer); [|done]. cbn [mbind result_bind].
  destruct (b !! "status"); [|done]. cbn [mbind result_bind]. apply IH.
Qed.

Lemma same_on_symbols_of (xs ys : list dict) :
  Forall2 (same_on row_keys) xs ys -> symbols_of xs = symbols_of ys.
Proof.
  induction 1 as [| a b xs ys Hab _ IH]; [done|].
  unfold same_on, row_keys in Hab. apply Forall_cons in Hab as [H1 _].
  cbn [symbols_of]. unfold dict_getitem. by rewrite H1, IH.
Qed.

(** X8: the report reads nothing of a qualifying event but the seven keys of
    a row: two lists whose records agree, one by one, on these keys give the
    same document or the same exception. The date that the filter carries
    along is never shown: with or without it the result is the same. *)
Theorem report_reads_row_keys (now : datetime) :
  (forall xs ys : list dict,
     Forall2 (same_on row_keys) xs ys ->
     format_email_body now xs = format_email_body now ys) /\
  (forall ipos : list dict,
     format_email_body now (delete "date" <$> ipos) = format_email_body now ipos) /\
  (forall (key : string) (v : pyval) (ipos : list dict),
     key ∉ row_keys ->
     format_email_body now (<[key := v]> <$> ipos) = format_email_body now ipos).
Proof.
  assert (Hsame : forall xs ys : list dict,
             Forall2 (same_on row_keys) xs ys ->
             format_email_body now xs = format_email_body now ys).
  { intros xs ys H. unfold format_email_body.
    pose proof (Forall2_length _ _ _ H) as Hlen.
    rewrite (same_on_rows_loop _ _ _ H), (same_on_symbols_of _ _ H), Hlen.
    by destruct H. }
  split; [exact Hsame | split].
  - intros ipos. apply Hsame, Forall2_fmap_l, Forall_Forall2_diag, Forall_forall.
    intros d _. apply same_on_delete. unfold row_keys.
    rewrite !not_elem_of_cons. repeat split; [discriminate.. | apply not_elem_of_nil].
  - intros key v ipos Hkey.
    apply Hsame, Forall2_fmap_l, Forall_Forall2_diag, Forall_forall.
    intros d _. by apply same_on_insert.
Qed.

Lemma row_of_shows (ipo : dict) :
  Forall (fun text => contains text (row_of ipo) = true)
    [ cell_text ipo "symbol"; cell_text ipo "name"; cell_text ipo "exchange";
      cell_text ipo "price"; amount_text ipo "shares";
      amount_text ipo "offer_amount"; cell_text ipo "status" ].
Proof.
  unfold row_of, row_template.
  repeat (apply List.Forall_cons; [find_piece|]). apply List.Forall_nil.
Qed.

Lemma rows_show (text : string) (ipo : dict) (ipos : list dict) :
  ipo ∈ ipos -> contains text (row_of ipo) = true ->
  contains text (concat_all (row_of <$> ipos)) = true.
Proof.
  intros Hin Hrow. induction Hin as [ipo rest | ipo other rest _ IH];
    rewrite fmap_cons; cbn [concat_all foldr].
  - by apply contains_app_l.
  - by apply contains_app_r, IH.
Qed.

Lemma populated_template_shows (text today count threshold rows summary : string) :
  contains text rows = true ->
  contains text (populated_template today count threshold rows summary) = true.
Proof.
  intros H. unfold populated_template.
  repeat first [ solve [apply contains_app_l; exact H] | apply contains_app_r ].
Qed.

(** X9: every document that is returned shows every record: for each record
    of the list, the texts of its symbol, name, exchange, price and status,
    and its share count and offer amount with thousands separators, each
    stand in the document as they are, with no escaping. *)
Theorem report_shows_every_field (now : datetime) (ipos : list dict)
    (body : string) (ipo : dict) :
  format_email_body now ipos = Ok body ->
  ipo ∈ ipos ->
  Forall (fun text => contains text body = true)
    [ cell_text ipo "symbol"; cell_text ipo "name"; cell_text ipo "exchange";
      cell_text ipo "price"; amount_text ipo "shares";
      amount_text ipo "offer_amount"; cell_text ipo "status" ].
Proof.
  intros Hbody Hin.
  pose proof (format_email_body_inv _ _ _ Hbody) as Hall.
  assert (Hne : ipos <> []) by (intros ->; by apply not_elem_of_nil in Hin).
  rewrite (format_email_body_renderable _ _ Hne Hall) in Hbody.
  injection Hbody as <-.
  eapply Forall_impl; [apply (row_of_shows ipo)|]. intros text Htext.
  by apply populated_template_shows, (rows_show _ ipo).
Qed.

Lemma empty_template_no_table (today threshold : string) :
  free_of "<" today = true -> free_of "<" threshold = true ->
  contains "<table" (empty_template today threshold) = false.
Proof.
  intros Htoday Hthreshold. unfold empty_template. split_search. drop_free.
  vm_compute. reflexivity.
Qed.

Lemma populated_template_table (today count threshold rows summary : string) :
  contains "<table" (populated_template today count threshold rows summary) = true.
Proof.
  unfold populated_template.
  repeat first [ solve [apply contains_app_l; vm_compute; reflexivity]
               | apply contains_app_r ].
Qed.

(** X10: the two templates cannot be confused: a document that is returned
    holds a table exactly when the list is not empty. *)
Theorem report_table_iff_events (now : datetime) (ipos : list dict) (body : string) :
  format_email_body now ipos = Ok body ->
  (contains "<table" body = true <-> ipos <> []).
Proof.
  intros Hbody. destruct ipos as [| ipo rest].
  - injection Hbody as <-.
    rewrite empty_template_no_table;
      [done | apply free_of_strftime_long | vm_compute; reflexivity].
  - pose proof (format_email_body_inv _ _ _ Hbody) as Hall.
    assert (Hne : ipo :: rest <> []) by discriminate.
    rewrite (format_email_body_renderable _ _ Hne Hall) in Hbody.
    injection Hbody as <-. by rewrite populated_template_table.
Qed.

End Report_more.

(** X8 at the two qualifying events of the mock data, with a note added. *)
Lemma report_reads_row_keys_witness :
  ("note" ∉ row_keys) /\
  format_email_body (RT:=sample_runtime) morning
    (<["note" := PStr "<b>"]> <$> mock_qualifying) =
  format_email_body (RT:=sample_runtime) morning mock_qualifying.
Proof.
  assert (H : "note" ∉ row_keys)
    by (unfold row_keys; rewrite !not_elem_of_cons; repeat split;
        [discriminate.. | apply not_elem_of_nil]).
  split; [exact H|].
  exact (proj2 (proj2 (report_reads_row_keys (RT:=sample_runtime) morning))
           "note" (PStr "<b>") mock_qualifying H).
Defined.

(** X9 at the two qualifying events of the mock data. *)
Lemma report_shows_every_field_witness :
  exists body,
    format_email_body (RT:=sample_runtime) morning mock_qualifying = Ok body /\
    contains "Test Large IPO Company" body = true /\
    contains "500,000,000" body = true.
Proof.
  destruct (proj2 (format_email_body_returns (RT:=sample_runtime) morning
                     mock_qualifying))
    as [body Hbody].
  { unfold mock_qualifying, MOCK_IPO_DATA. cbn [take drop app fmap list_fmap].
    all_true. }
  exists body. split; [exact Hbody|].
  assert (Hin : normalized
                  (list_to_map
                     [ ("symbol", PStr "TESTIPO");
                       ("name", PStr "Test Large IPO Company");
                       ("exchange", PStr "NYSE");
                       ("price", PStr "25.00");
                       ("numberOfShares", PInt 20000000);
                       ("totalSharesValue", PInt 500000000);
                       ("status", PStr "priced");
                       ("date", PStr "2026-01-30") ]) ∈ mock_qualifying)
    by (unfold mock_qualifying, MOCK_IPO_DATA; cbn [take drop app fmap list_fmap];
        apply list_elem_of_further, list_elem_of_here).
  pose proof (report_shows_every_field (RT:=sample_runtime) morning
                mock_qualifying body _ Hbody Hin) as Hshown.
  rewrite !Forall_cons in Hshown.
  destruct Hshown as (_ & Hname & _ & _ & _ & Hoffer & _).
  split; [exact Hname | exact Hoffer].
Defined.

(** X10 at the two qualifying events of the mock data. *)
Lemma report_table_iff_events_witness :
  exists body,
    format_email_body (RT:=sample_runtime) morning mock_qualifying = Ok body /\
    contains "<table" body = true.
Proof.
  destruct (proj2 (format_email_body_returns (RT:=sample_runtime) morning
                     mock_qualifying))
    as [body Hbody].
  { unfold mock_qualifying, MOCK_IPO_DATA. cbn [take drop app fmap list_fmap].
    all_true. }
  exists body. split; [exact Hbody|].
  apply (report_table_iff_events (RT:=sample_runtime) morning mock_qualifying
           body Hbody).
  discriminate.
Defined.

(** ** Further properties of a run *)

Lemma prints_no_request (t : list effect) :
  Forall (fun e => is_print e = true) t ->
  http_requests t = [] /\ email_attempts t = [].
Proof.
  induction 1 as [| e t He _ [IHr IHm]]; [done|].
  destruct e; try discriminate He. split; [exact IHr | exact IHm].
Qed.

Lemma http_requests_prints (t : list effect) :
  Forall (fun e => is_print e = true) t -> http_requests t = [].
Proof. intros H. apply (prints_no_request _ H). Qed.

Lemma email_attempts_prints (t : list effect) :
  Forall (fun e => is_print e = true) t -> email_attempts t = [].
Proof. intros H. apply (prints_no_request _ H). Qed.

Lemma http_requests_request (w : world) (t : list effect) :
  http_requests (request_of w :: t) = request_of w :: http_requests t.
Proof. reflexivity. Qed.

Lemma http_requests_session (host : string) (port : Z) (sender : option string)
    (subject body : string) (t : list effect) :
  http_requests (SmtpSession host port sender subject body :: t) = http_requests t.
Proof. reflexivity. Qed.

Lemma http_requests_app (t t' : list effect) :
  http_requests (t ++ t') = http_requests t ++ http_requests t'.
Proof. apply List.filter_app. Qed.

Lemma Forall_is_print_lines (lines : list string) :
  Forall (fun e => is_print e = true) (Print <$> lines).
Proof. apply Forall_fmap, Forall_forall. by intros line _. Qed.

(** The fetch makes its request first, and then at most logs. *)
Lemma get_todays_ipos_trace (w : world) :
  exists log,
    fst (get_todays_ipos w) = request_of w :: log /\
    Forall (fun e => is_print e = true) log.
Proof.
  unfold get_todays_ipos, request_of, perform, print.
  destruct (http w) as [e | resp].
  - eexists. split; [reflexivity|]. by repeat constructor.
  - destruct (raise_for_status resp).
    + eexists. split; [reflexivity|]. by repeat constructor.
    + eexists. split; [reflexivity|]. constructor.
Qed.

Section Trace.
Context {RT : PyRuntime}.

Lemma print_qualifying_only_prints (ipos : list dict) :
  Forall (fun e => is_print e = true) (fst (print_qualifying ipos)).
Proof.
  induction ipos as [| ipo rest IH]; [constructor|].
  cbn [print_qualifying]. unfold lift, print.
  destruct (dict_getitem ipo "symbol"); step_run; [|constructor].
  destruct (dict_getitem ipo "name"); step_run; [|constructor].
  destruct (dict_getitem ipo "offer_amount") as [offer |]; step_run; [|constructor].
  destruct (py_format_comma offer); step_run; [|constructor].
  cbn [fst app]. by constructor.
Qed.

Lemma listing_only_prints (out : list dict) :
  Forall (fun e => is_print e = true)
    (fst (match out return io unit with
          | [] => mret tt
          | _ :: _ => print (nl +:+ "Qualifying IPOs:");; print_qualifying out
          end)).
Proof.
  destruct out as [| q rest]; [constructor|].
  unfold print. step_run. cbn [fst app]. constructor; [done|].
  apply print_qualifying_only_prints.
Qed.

(** How a run goes when the filter and the report return: the opening
    lines, the fetch, the counts and the listing, then the mail session and
    the closing lines. *)
Lemma main_trace_sends (w : world) (out : list dict) (body : string) :
  filter_large_ipos (fetched w) = Ok out ->
  format_email_body (now_body w) out = Ok body ->
  exists listed,
    Forall (fun e => is_print e = true) listed /\
    fst (main w) =
      (Print <$> opening_lines w) ++ fst (get_todays_ipos w) ++ listed ++
      SmtpSession SMTP_SERVER SMTP_PORT (EMAIL_ADDRESS w)
        (subject_for w (length out)) body
      :: (Print <$> closing_lines w).
Proof.
  intros Hq Hbody.
  destruct (get_todays_ipos_run w) as (Ef & _).
  destruct (listing_run _ _ Hq) as (El & _).
  pose proof (listing_only_prints out) as Hl.
  exists ([ Print ("✓ Found " +:+ int_str (Z.of_nat (length (fetched w))) +:+
                   " total IPO(s) for today");
            Print "Filtering for high-value listings...";
            Print ("✓ Found " +:+ int_str (Z.of_nat (length out)) +:+
                   " IPO(s) with offer amount > $" +:+
                   int_format_comma MIN_OFFER_AMOUNT) ] ++
          fst (match out return io unit with
               | [] => mret tt
               | _ :: _ => print (nl +:+ "Qualifying IPOs:");; print_qualifying out
               end) ++
          [ Print (nl +:+ "Preparing email notification...") ]).
  split.
  { apply Forall_app. split; [by repeat constructor|].
    apply Forall_app. split; [exact Hl | by repeat constructor]. }
  unfold main, send_email, closing_lines, subject_for, perform, print, lift in *.
  destruct (smtp w); step_run; cbn [fst app fmap list_fmap opening_lines];
    by rewrite <- !app_assoc.
Qed.

(** How a run goes when the filter or the report raises: after the fetch it
    only prints, and it stops after announcing the step that raised. *)
Lemma main_trace_raises (w : world) (e : exn) :
  snd (main w) = Raise e ->
  exists rest stop,
    Forall (fun e => is_print e = true) rest /\
    (stop = "Filtering for high-value listings..." \/
     stop = nl +:+ "Preparing email notification...") /\
    fst (main w) =
      (Print <$> opening_lines w) ++ fst (get_todays_ipos w) ++ rest ++ [Print stop].
Proof.
  intros Hraise.
  destruct (get_todays_ipos_run w) as (Ef & _).
  destruct (filter_large_ipos (fetched w)) as [out | e'] eqn:Hq.
  - destruct (listing_run _ _ Hq) as (El & _).
    pose proof (listing_only_prints out) as Hl.
    destruct (format_email_body (now_body w) out) as [body | e''] eqn:Hbody.
    { destruct (main_sends w out body Hq Hbody) as (Hr & _). congruence. }
    exists ([ Print ("✓ Found " +:+ int_str (Z.of_nat (length (fetched w))) +:+
                     " total IPO(s) for today");
              Print "Filtering for high-value listings...";
              Print ("✓ Found " +:+ int_str (Z.of_nat (length out)) +:+
                     " IPO(s) with offer amount > $" +:+
                     int_format_comma MIN_OFFER_AMOUNT) ] ++
            fst (match out return io unit with
                 | [] => mret tt
                 | _ :: _ => print (nl +:+ "Qualifying IPOs:");; print_qualifying out
                 end)),
           (nl +:+ "Preparing email notification...").
    split; [apply Forall_app; split; [by repeat constructor | exact Hl] |].
    split; [by right|].
    unfold main, print, lift in *. step_run.
    cbn [fst app fmap list_fmap opening_lines]. by rewrite <- ?app_assoc.
  - exists [ Print ("✓ Found " +:+ int_str (Z.of_nat (length (fetched w))) +:+
                    " total IPO(s) for today") ],
           "Filtering for high-value listings...".
    split; [by repeat constructor|]. split; [by left|].
    unfold main, print, lift in *. step_run.
    cbn [fst app fmap list_fmap opening_lines]. reflexivity.
Qed.

Lemma pipeline_returns_iff (now : datetime) (xs : list dict) :
  (exists out body,
     filter_large_ipos xs = Ok out /\ format_email_body now out = Ok body) <->
  Forall (fun ipo => decidable_value ipo = true) xs /\
  Forall (fun ipo => qualifies ipo = true -> presentable ipo = true) xs.
Proof.
  destruct (filter_large_ipos_cases xs) as [[Hdec E] | [Hbad E]]; rewrite E.
  - rewrite <- renderable_filtered, <- (format_email_body_returns now). split.
    + intros (out & body & [= <-] & Hbody). split; [done | by exists body].
    + intros [_ [body Hbody]]. by eexists _, body.
  - split; [by intros (out & body & H & _)|]. intros [Hdec _].
    apply Exists_exists in Hbad as (ipo & Hin & Hipo).
    rewrite Forall_forall in Hdec. specialize (Hdec ipo Hin). congruence.
Qed.

Lemma empty_template_no_row (today threshold : string) :
  free_of "<" today = true -> free_of "<" threshold = true ->
  occurrences "<tr>" (empty_template today threshold) = 0%nat.
Proof.
  intros Htoday Hthreshold. unfold empty_template. split_search. drop_free.
  eval_pieces. reflexivity.
Qed.

(** The rows of a returned document are as many as the records, when no
    field brings markup of its own. *)
Lemma format_email_body_rows (now : datetime) (ipos : list dict) (body : string) :
  format_email_body now ipos = Ok body ->
  Forall (fun ipo => markup_free ipo = true) ipos ->
  occurrences "<tr>" body = length ipos.
Proof.
  intros Hbody Hfree. pose proof (free_of_strftime_long now) as Htoday.
  destruct (decide (ipos = [])) as [-> | Hne].
  - injection Hbody as <-.
    apply empty_template_no_row; [done | vm_compute; reflexivity].
  - pose proof (format_email_body_inv _ _ _ Hbody) as Hall.
    rewrite (format_email_body_renderable _ _ Hne Hall) in Hbody.
    injection Hbody as <-.
    destruct (rows_one_each _ Hfree) as [Hrows_closed Hrows].
    pose proof (free_of_int_str (Z.of_nat (length ipos))) as Hcount.
    assert (Hsummary : free_of "<"
              (String.concat ", "
                 ((fun ipo => cell_text ipo "symbol") <$> ipos)) = true).
    { apply free_of_concat; [done|]. apply Forall_fmap.
      eapply Forall_impl; [exact Hfree|]. intros q Hq.
      by apply markup_free_fields in Hq as (Hsym & _). }
    unfold populated_template. split_search.
    drop_free. rewrite Hrows. eval_pieces. lia.
Qed.

(** X11: every run makes exactly one request, whatever happens afterwards,
    and opens at most one mail session; everything before the request is
    console output, so no mail is ever attempted before the fetch, and
    nothing is requested again after it. *)
Theorem run_requests_once (w : world) :
  http_requests (fst (main w)) = [request_of w] /\
  (length (email_attempts (fst (main w))) <= 1)%nat /\
  exists before after,
    fst (main w) = before ++ request_of w :: after /\
    Forall (fun e => is_print e = true) before /\
    http_requests after = [].
Proof.
  destruct (get_todays_ipos_trace w) as (log & Hget & Hlog).
  pose proof (Forall_is_print_lines (opening_lines w)) as Hopen.
  destruct (snd (main w)) as [code | e] eqn:Hrun.
  - destruct (main_cases w) as [(e & Hr & _) | (out & body & Hq & Hbody & _ & Ht & _)];
      [congruence|].
    destruct (main_trace_sends w out body Hq Hbody) as (listed & Hlisted & Htrace).
    pose proof (Forall_is_print_lines (closing_lines w)) as Hclose.
    rewrite Ht. split; [| split; [cbn; lia |]].
    + rewrite Htrace, Hget, !http_requests_app, http_requests_request.
      rewrite (http_requests_session _ _ _ _ _ (Print <$> closing_lines w)).
      by rewrite (http_requests_prints _ Hopen), (http_requests_prints _ Hlog),
        (http_requests_prints _ Hlisted), (http_requests_prints _ Hclose).
    + eexists _, _. split; [rewrite Htrace, Hget; reflexivity|].
      split; [exact Hopen|].
      rewrite !http_requests_app.
      rewrite (http_requests_session _ _ _ _ _ (Print <$> closing_lines w)).
      by rewrite (http_requests_prints _ Hlog), (http_requests_prints _ Hlisted),
        (http_requests_prints _ Hclose).
  - destruct (main_trace_raises w e Hrun) as (rest & stop & Hrest & _ & Htrace).
    assert (Hstop : Forall (fun e => is_print e = true) [Print stop])
      by (by repeat constructor).
    split; [| split].
    + rewrite Htrace, Hget, !http_requests_app, http_requests_request.
      by rewrite (http_requests_prints _ Hopen), (http_requests_prints _ Hlog),
        (http_requests_prints _ Hrest), (http_requests_prints _ Hstop).
    + rewrite Htrace, Hget, !email_attempts_app.
      change (request_of w :: log) with ([request_of w] ++ log).
      rewrite email_attempts_app.
      rewrite (email_attempts_prints _ Hopen), (email_attempts_prints _ Hlog),
        (email_attempts_prints _ Hrest), (email_attempts_prints _ Hstop).
      cbn. lia.
    + eexists _, _. split; [rewrite Htrace, Hget; reflexivity|].
      split; [exact Hopen|].
      rewrite !http_requests_app.
      by rewrite (http_requests_prints _ Hlog), (http_requests_prints _ Hrest),
        (http_requests_prints _ Hstop).
Qed.

(** X12: in the mail of a run the subject and the body agree: the number the
    subject states is the number of qualifying events, and, when no field
    brings markup of its own, the number of rows of the table in the body
    (none when nothing qualifies). *)
Theorem mail_subject_counts_rows (w : world) (out : list dict) (body : string) :
  filter_large_ipos (fetched w) = Ok out ->
  format_email_body (now_body w) out = Ok body ->
  Forall (fun q => markup_free q = true) out ->
  email_attempts (fst (main w)) =
    [ ("IPO Alert: " +:+ int_str (Z.of_nat (length out)) +:+
       " Large IPO(s) Today - " +:+ strftime_date (now_subject w), body) ] /\
  length out = length (List.filter qualifies (fetched w)) /\
  occurrences "<tr>" body = length out.
Proof.
  intros Hq Hbody Hfree.
  destruct (main_sends w out body Hq Hbody) as (_ & Ht & _).
  split; [exact Ht|]. split; [|by eapply format_email_body_rows].
  apply filter_large_ipos_inv in Hq as [_ ->]. apply length_fmap.
Qed.

End Trace.

Section Run_more.
Context {RT : PyRuntime}.

(** X15: a failed fetch shows neither in the exit status nor in the mail.
    When the request fails and the mail is accepted, the exit status is 0;
    and the mail of a run depends on the fetch only through the list it
    returns, so after a failed fetch it is the very mail of a day on which
    the calendar is empty. *)
Theorem fetch_failure_invisible (w : world) :
  (forall e, http w = inl e -> smtp w = Delivered ->
     exit_status (main w) = 0 /\
     email_attempts (fst (main w)) =
       [ (subject_for w 0, empty_template (strftime_long (now_body w)) "200,000,000") ]) /\
  (forall w' : world,
     fetched w' = fetched w -> now_subject w' = now_subject w ->
     now_body w' = now_body w ->
     email_attempts (fst (main w')) = email_attempts (fst (main w))).
Proof.
  split.
  - intros e He Hs.
    assert (Hfetched : fetched w = []) by (unfold fetched; by rewrite He).
    assert (Hq : filter_large_ipos (fetched w) = Ok []) by (by rewrite Hfetched).
    assert (Hbody : format_email_body (now_body w) [] =
                    Ok (empty_template (strftime_long (now_body w)) "200,000,000"))
      by reflexivity.
    destruct (main_sends w [] _ Hq Hbody) as (Hr & Ht & _).
    split; [|exact Ht].
    rewrite exit_status_result, Hr. unfold delivered. by rewrite Hs.
  - intros w' Hf Hsub Hnow.
    destruct (main_cases w)
      as [(e & _ & Ht & Hwhy) | (out & body & Hq & Hbody & _ & Ht & _)];
      rewrite Ht.
    + destruct (main_cases w')
        as [(e' & _ & Ht' & _) | (out' & body' & Hq' & Hbody' & _)]; [done|].
      rewrite Hf in Hq'. rewrite Hnow in Hbody'.
      destruct Hwhy as [Hw | (out'' & Hw & Hw')]; congruence.
    + rewrite <- Hf in Hq. rewrite <- Hnow in Hbody.
      destruct (main_sends w' out body Hq Hbody) as (_ & Ht' & _).
      rewrite Ht'. unfold subject_for. by rewrite Hsub.
Qed.

End Run_more.

(** X15 at a run whose request cannot connect. *)
Lemma fetch_failure_invisible_witness :
  http offline_world = inl (ConnectionError "Name or service not known") /\
  smtp offline_world = Delivered /\
  exit_status (main (RT:=sample_runtime) offline_world) = 0.
Proof.
  split; [reflexivity | split; [reflexivity|]].
  exact (proj1 (proj1 (fetch_failure_invisible (RT:=sample_runtime) offline_world)
                  _ eq_refl eq_refl)).
Defined.

Lemma mock_qualifying_renderable :
  Forall (fun ipo => renderable ipo = true) mock_qualifying.
Proof.
  unfold mock_qualifying, MOCK_IPO_DATA. cbn [take drop app fmap list_fmap].
  all_true.
Qed.

Lemma mock_qualifying_markup_free :
  Forall (fun ipo => markup_free (RT:=sample_runtime) ipo = true) mock_qualifying.
Proof.
  unfold mock_qualifying, MOCK_IPO_DATA. cbn [take drop app fmap list_fmap].
  all_true.
Qed.

Lemma mock_presentable :
  Forall (fun ipo => qualifies ipo = true -> presentable ipo = true) MOCK_IPO_DATA.
Proof.
  unfold MOCK_IPO_DATA.
  repeat (apply List.Forall_cons; [intros _; vm_compute; reflexivity|]).
  apply List.Forall_nil.
Qed.

(** X12 at a run that fetches the mock data. *)
Lemma mail_subject_counts_rows_witness :
  filter_large_ipos (fetched (world_with MOCK_IPO_DATA Delivered)) = Ok mock_qualifying /\
  Forall (fun q => markup_free (RT:=sample_runtime) q = true) mock_qualifying /\
  exists body,
    format_email_body (RT:=sample_runtime)
      (now_body (world_with MOCK_IPO_DATA Delivered)) mock_qualifying = Ok body /\
    occurrences "<tr>" body = 2%nat.
Proof.
  split; [exact mock_filter_run | split; [exact mock_qualifying_markup_free|]].
  destruct (proj2 (format_email_body_returns (RT:=sample_runtime)
                     (now_body (world_with MOCK_IPO_DATA Delivered))
                     mock_qualifying) mock_qualifying_renderable)
    as [body Hbody].
  exists body. split; [exact Hbody|].
  exact (proj2 (proj2 (mail_subject_counts_rows (RT:=sample_runtime)
                         (world_with MOCK_IPO_DATA Delivered) mock_qualifying body
                         mock_filter_run Hbody mock_qualifying_markup_free))).
Defined.

(** ** Properties of the run on any response *)

(** On a list of objects the loop is the loop over the records. *)
Lemma wire_filter_loop_events (xs acc : list dict) :
  Wire.filter_loop (PDict <$> xs) acc = filter_loop xs acc.
Proof.
  revert acc. induction xs as [| ipo rest IH]; intros acc; [done|].
  rewrite fmap_cons. cbn [Wire.filter_loop filter_loop].
  destruct (if py_truthy (dict_get ipo "totalSharesValue" (PInt 0))
            then py_ge_int (dict_get ipo "totalSharesValue" (PInt 0)) MIN_OFFER_AMOUNT
            else Ok false) as [[|] | e]; cbn [mbind result_bind]; by rewrite ?IH.
Qed.

(** A loop that returns has met objects only. *)
Lemma wire_filter_loop_inv (items : list pyval) (acc out : list dict) :
  Wire.filter_loop items acc = Ok out ->
  exists xs, items = PDict <$> xs.
Proof.
  revert acc. induction items as [| item rest IH]; intros acc; [by exists []|].
  cbn [Wire.filter_loop]. destruct item as [| | | | | | ipo]; try done.
  destruct (if py_truthy (dict_get ipo "totalSharesValue" (PInt 0))
            then py_ge_int (dict_get ipo "totalSharesValue" (PInt 0)) MIN_OFFER_AMOUNT
            else Ok false) as [[|] | e]; cbn [mbind result_bind]; [| |done];
    intros [xs ->]%IH; by exists (ipo :: xs).
Qed.

Lemma wire_filter_iter (v : pyval) (xs : list dict) :
  py_iter v = Ok (PDict <$> xs) ->
  Wire.filter_large_ipos v = filter_large_ipos xs.
Proof.
  intros Hiter. unfold Wire.filter_large_ipos, filter_large_ipos.
  rewrite Hiter. cbn [mbind result_bind]. apply wire_filter_loop_events.
Qed.

Lemma wire_filter_inv (v : pyval) (out : list dict) :
  Wire.filter_large_ipos v = Ok out ->
  exists xs, py_iter v = Ok (PDict <$> xs) /\ filter_large_ipos xs = Ok out.
Proof.
  unfold Wire.filter_large_ipos. destruct (py_iter v) as [items |] eqn:Hiter; [|done].
  cbn [mbind result_bind]. intros Hloop.
  destruct (wire_filter_loop_inv _ _ _ Hloop) as [xs ->].
  exists xs. split; [done|]. unfold filter_large_ipos.
  by rewrite <- wire_filter_loop_events.
Qed.

(** What can be gone through has a length. *)
Lemma py_iter_len (v : pyval) (items : list pyval) :
  py_iter v = Ok items -> exists n, py_len v = Ok n.
Proof. destruct v; try done; by eexists. Qed.

(** The values over which the loop meets objects only: a list of objects,
    and the empty string and the empty dict, which hold nothing. *)
Lemma py_iter_events (v : pyval) (xs : list dict) :
  py_iter v = Ok (PDict <$> xs) <->
  v = events_value xs \/ (xs = [] /\ (v = PStr "" \/ v = PDict ∅)).
Proof.
  split.
  - destruct v as [| | | | s | items | d]; try done; cbn [py_iter].
    + intros [= H]. right.
      destruct (characters s) as [| c cs] eqn:Hs.
      * destruct xs; [|done]. split; [done|]. left.
        destruct s as [| c rest]; [done|]. cbn [characters] in Hs.
        destruct (characters rest) as [| [| c' next] others]; try done.
        by destruct (continuation_byte c').
      * by destruct xs.
    + intros [= ->]. by left.
    + intros [= H]. right.
      destruct (map_to_list d) as [| [k x] kvs] eqn:Hd.
      * apply map_to_list_empty_iff in Hd as ->. destruct xs; [|done]. by split; [|right].
      * by destruct xs.
  - intros [-> | [-> [-> | ->]]]; [done | done |].
    cbn [py_iter]. by rewrite map_to_list_empty.
Qed.

(** The fetch makes its request and then either logs one line and returns
    the empty list, or does nothing more. *)
Lemma wire_get_cases (w : Wire.world) :
  (exists msg,
     Wire.get_todays_ipos w =
       ([Wire.request_of w; Print ("Error fetching IPO data: " +:+ msg)],
        Ok (PList []))) \/
  (exists r, Wire.get_todays_ipos w = ([Wire.request_of w], r)).
Proof.
  unfold Wire.get_todays_ipos, Wire.request_of, perform, print, lift.
  destruct (Wire.http w) as [e | resp]; [left; by eexists|].
  destruct (Wire.raise_for_status resp); [left; by eexists|].
  destruct (Wire.json resp) as [msg | data]; [left; by eexists|].
  right. by eexists.
Qed.

Lemma wire_get_no_mail (w : Wire.world) :
  email_attempts (fst (Wire.get_todays_ipos w)) = [].
Proof. by destruct (wire_get_cases w) as [[msg ->] | [r ->]]. Qed.

(** When the fetch raises, or returns what has no length, it has logged
    nothing. *)
Lemma wire_get_silent (w : Wire.world) (e : exn) :
  snd (Wire.get_todays_ipos w) = Raise e \/
  (exists v, snd (Wire.get_todays_ipos w) = Ok v /\ py_len v = Raise e) ->
  printed (fst (Wire.get_todays_ipos w)) = [].
Proof.
  destruct (wire_get_cases w) as [[msg ->] | [r ->]]; [|done].
  by intros [H | (v & [= <-] & H)].
Qed.

Lemma wire_send_email_run (w : Wire.world) (subject body : string) :
  snd (Wire.send_email w subject body) =
    Ok (match Wire.smtp w with Delivered => true | _ => false end) /\
  email_attempts (fst (Wire.send_email w subject body)) = [(subject, body)] /\
  printed (fst (Wire.send_email w subject body)) =
    match Wire.smtp w with
    | Delivered => [ "✓ Email sent successfully to " +:+ env_str (Wire.EMAIL_ADDRESS w) ]
    | AuthenticationFailed => guidance
    | SendFailed msg => [ "✗ Error sending email: " +:+ msg ]
    end.
Proof. unfold Wire.send_email, perform, print. by destruct (Wire.smtp w). Qed.

Lemma last_printed_end (t : list effect) (line : string) :
  last (printed (t ++ [Print line])) = Some line.
Proof. rewrite printed_app. apply last_snoc. Qed.

Section WireRun.
Context {RT : PyRuntime}.

Lemma wire_main_fetch_raises (w : Wire.world) (e : exn) :
  snd (Wire.get_todays_ipos w) = Raise e \/
  (exists v, snd (Wire.get_todays_ipos w) = Ok v /\ py_len v = Raise e) ->
  snd (Wire.main w) = Raise e /\
  email_attempts (fst (Wire.main w)) = [] /\
  last (printed (fst (Wire.main w))) =
    Some "Fetching today's IPO data from Finnhub...".
Proof.
  intros Hwhy. pose proof (wire_get_silent w e Hwhy) as Hsilent.
  pose proof (wire_get_no_mail w) as Hmail.
  unfold Wire.main, print, lift.
  destruct Hwhy as [Hget | (v & Hget & Hlen)].
  - split; [| split]; step_run; [done | |].
    + by rewrite !email_attempts_app, Hmail.
    + by rewrite !printed_app, Hsilent.
  - split; [| split]; step_run; [done | |].
    + by rewrite !email_attempts_app, Hmail.
    + by rewrite !printed_app, Hsilent.
Qed.

Lemma wire_main_filter_raises (w : Wire.world) (v : pyval) (e : exn) :
  snd (Wire.get_todays_ipos w) = Ok v ->
  Wire.filter_large_ipos v = Raise e ->
  (exists n, py_len v = Ok n) ->
  snd (Wire.main w) = Raise e /\
  email_attempts (fst (Wire.main w)) = [] /\
  last (printed (fst (Wire.main w))) = Some "Filtering for high-value listings...".
Proof.
  intros Hget Hq [n Hlen]. pose proof (wire_get_no_mail w) as Hmail.
  unfold Wire.main, print, lift.
  split; [| split]; step_run; [done | |].
  - by rewrite !email_attempts_app, Hmail.
  - cbn [fst]. rewrite ?app_nil_r, !app_assoc. apply last_printed_end.
Qed.

Lemma wire_main_render_raises (w : Wire.world) (v : pyval) (out : list dict)
    (e : exn) :
  snd (Wire.get_todays_ipos w) = Ok v ->
  Wire.filter_large_ipos v = Ok out ->
  format_email_body (Wire.now_body w) out = Raise e ->
  snd (Wire.main w) = Raise e /\
  email_attempts (fst (Wire.main w)) = [] /\
  last (printed (fst (Wire.main w))) =
    Some (nl +:+ "Preparing email notification...").
Proof.
  intros Hget Hq Hbody. pose proof (wire_get_no_mail w) as Hmail.
  destruct (wire_filter_inv _ _ Hq) as (xs & Hiter & Hxs).
  destruct (py_iter_len _ _ Hiter) as [n Hlen].
  destruct (listing_run _ _ Hxs) as (El & Hl).
  unfold Wire.main, print, lift in *.
  split; [| split]; step_run; [done | |].
  - by rewrite !email_attempts_app, Hmail, Hl.
  - cbn [fst]. rewrite ?app_nil_r, !app_assoc. apply last_printed_end.
Qed.

Lemma wire_main_sends (w : Wire.world) (v : pyval) (out : list dict)
    (body : string) :
  snd (Wire.get_todays_ipos w) = Ok v ->
  Wire.filter_large_ipos v = Ok out ->
  format_email_body (Wire.now_body w) out = Ok body ->
  snd (Wire.main w) =
    Ok (match Wire.smtp w with Delivered => 0 | _ => 1 end) /\
  email_attempts (fst (Wire.main w)) =
    [ ("IPO Alert: " +:+ int_str (Z.of_nat (length out)) +:+
       " Large IPO(s) Today - " +:+ strftime_date (Wire.now_subject w), body) ] /\
  exists front,
    printed (fst (Wire.main w)) =
      front ++ final_lines (Wire.EMAIL_ADDRESS w) (Wire.smtp w).
Proof.
  intros Hget Hq Hbody. pose proof (wire_get_no_mail w) as Hmail.
  destruct (wire_filter_inv _ _ Hq) as (xs & Hiter & Hxs).
  destruct (py_iter_len _ _ Hiter) as [n Hlen].
  destruct (listing_run _ _ Hxs) as (El & Hl).
  destruct (wire_send_email_run w
              ("IPO Alert: " +:+ int_str (Z.of_nat (length out)) +:+
               " Large IPO(s) Today - " +:+ strftime_date (Wire.now_subject w)) body)
    as (Es & Hs & Hp).
  unfold Wire.main, print, lift, final_lines, guidance in *.
  split; [| split].
  - step_run. destruct (Wire.smtp w); step_run; reflexivity.
  - step_run. rewrite !email_attempts_app, Hmail, Hl, Hs.
    destruct (Wire.smtp w); step_run; reflexivity.
  - step_run. rewrite !printed_app, Hp.
    destruct (Wire.smtp w); step_run; cbn [fst printed omap app];
      eexists; rewrite !app_assoc; reflexivity.
Qed.

(** The four ways a run can go. *)
Lemma wire_main_cases (w : Wire.world) :
  (exists e,
     (snd (Wire.get_todays_ipos w) = Raise e \/
      exists v, snd (Wire.get_todays_ipos w) = Ok v /\ py_len v = Raise e) /\
     snd (Wire.main w) = Raise e /\
     email_attempts (fst (Wire.main w)) = [] /\
     last (printed (fst (Wire.main w))) =
       Some "Fetching today's IPO data from Finnhub...") \/
  (exists e v n,
     snd (Wire.get_todays_ipos w) = Ok v /\ py_len v = Ok n /\
     Wire.filter_large_ipos v = Raise e /\
     snd (Wire.main w) = Raise e /\
     email_attempts (fst (Wire.main w)) = [] /\
     last (printed (fst (Wire.main w))) =
       Some "Filtering for high-value listings...") \/
  (exists e v out,
     snd (Wire.get_todays_ipos w) = Ok v /\
     Wire.filter_large_ipos v = Ok out /\
     format_email_body (Wire.now_body w) out = Raise e /\
     snd (Wire.main w) = Raise e /\
     email_attempts (fst (Wire.main w)) = [] /\
     last (printed (fst (Wire.main w))) =
       Some (nl +:+ "Preparing email notification...")) \/
  (exists v out body,
     snd (Wire.get_todays_ipos w) = Ok v /\
     Wire.filter_large_ipos v = Ok out /\
     format_email_body (Wire.now_body w) out = Ok body /\
     snd (Wire.main w) =
       Ok (match Wire.smtp w with Delivered => 0 | _ => 1 end) /\
     email_attempts (fst (Wire.main w)) =
       [ ("IPO Alert: " +:+ int_str (Z.of_nat (length out)) +:+
          " Large IPO(s) Today - " +:+ strftime_date (Wire.now_subject w), body) ] /\
     exists front,
       printed (fst (Wire.main w)) =
         front ++ final_lines (Wire.EMAIL_ADDRESS w) (Wire.smtp w)).
Proof.
  destruct (snd (Wire.get_todays_ipos w)) as [v | e] eqn:Hget.
  2:{ left. exists e.
      destruct (wire_main_fetch_raises w e (or_introl Hget)) as (Hr & Ht & Hl).
      split; [by left | done]. }
  destruct (py_len v) as [n | e] eqn:Hlen.
  2:{ left. exists e.
      assert (Hwhy : snd (Wire.get_todays_ipos w) = Raise e \/
                     exists v, snd (Wire.get_todays_ipos w) = Ok v /\
                               py_len v = Raise e) by (right; by exists v).
      destruct (wire_main_fetch_raises w e Hwhy) as (Hr & Ht & Hl).
      split; [right; by exists v | done]. }
  destruct (Wire.filter_large_ipos v) as [out | e] eqn:Hq.
  2:{ right. left. exists e, v, n.
      destruct (wire_main_filter_raises w v e Hget Hq (ex_intro _ n Hlen))
        as (Hr & Ht & Hl).
      done. }
  destruct (format_email_body (Wire.now_body w) out) as [body | e] eqn:Hbody.
  - do 3 right. exists v, out, body.
    destruct (wire_main_sends w v out body Hget Hq Hbody) as (Hr & Ht & Hp).
    done.
  - do 2 right. left. exists e, v, out.
    destruct (wire_main_render_raises w v out e Hget Hq Hbody) as (Hr & Ht & Hl).
    done.
Qed.

(** X13: [main] calls [send_email] exactly when [get_todays_ipos] returns a
    list of objects (or the empty string or the empty object, which hold
    nothing) in which every monetary value is false or a number and every
    qualifying object has a share count that is a number and a symbol that
    is a string or absent. In every other case (the fetch raises, it returns
    something else, or a record breaks the condition) an exception ends the
    run: there is no mail and the exit status is 1. *)
Theorem run_attempts_mail_iff (w : Wire.world) :
  (email_attempts (fst (Wire.main w)) <> [] <->
   exists v xs,
     snd (Wire.get_todays_ipos w) = Ok v /\
     (v = events_value xs \/ (xs = [] /\ (v = PStr "" \/ v = PDict ∅))) /\
     Forall (fun ipo => decidable_value ipo = true) xs /\
     Forall (fun ipo => qualifies ipo = true -> presentable ipo = true) xs) /\
  (email_attempts (fst (Wire.main w)) = [] ->
   exists e, snd (Wire.main w) = Raise e /\ exit_status (Wire.main w) = 1) /\
  (email_attempts (fst (Wire.main w)) <> [] ->
   length (email_attempts (fst (Wire.main w))) = 1%nat /\
   exists code, snd (Wire.main w) = Ok code).
Proof.
  assert (Hiff : forall v,
            (exists out body, Wire.filter_large_ipos v = Ok out /\
                              format_email_body (Wire.now_body w) out = Ok body) <->
            exists xs,
              (v = events_value xs \/ (xs = [] /\ (v = PStr "" \/ v = PDict ∅))) /\
              Forall (fun ipo => decidable_value ipo = true) xs /\
              Forall (fun ipo => qualifies ipo = true -> presentable ipo = true) xs).
  { intros v. split.
    - intros (out & body & Hq & Hbody).
      destruct (wire_filter_inv _ _ Hq) as (xs & Hiter & Hxs).
      exists xs. split; [by apply py_iter_events|].
      apply (pipeline_returns_iff (Wire.now_body w)). by exists out, body.
    - intros (xs & Hshape%py_iter_events & Hall).
      apply (pipeline_returns_iff (Wire.now_body w)) in Hall
        as (out & body & Hxs & Hbody).
      exists out, body. split; [|done]. by rewrite (wire_filter_iter _ _ Hshape). }
  rewrite exit_status_result.
  destruct (wire_main_cases w)
    as [(e & Hwhy & Hr & Ht & _) |
        [(e & v & n & Hget & Hlen & Hq & Hr & Ht & _) |
         [(e & v & out & Hget & Hq & Hbody & Hr & Ht & _) |
          (v & out & body & Hget & Hq & Hbody & Hr & Ht & _)]]];
    rewrite Hr, Ht.
  - split; [| split; [by exists e | done]]. split; [done|].
    intros (v & xs & Hget & Hshape & Hall).
    assert (Hiter : py_iter v = Ok (PDict <$> xs)) by (by apply py_iter_events).
    destruct (py_iter_len _ _ Hiter) as [n Hlen].
    destruct Hwhy as [Hw | (v' & Hw & Hw')]; congruence.
  - split; [| split; [by exists e | done]]. split; [done|].
    intros (v' & xs & Hget' & Hrest).
    assert (v' = v) as -> by congruence.
    destruct (proj2 (Hiff v) (ex_intro _ xs Hrest)) as (out & body & Hq' & _).
    congruence.
  - split; [| split; [by exists e | done]]. split; [done|].
    intros (v' & xs & Hget' & Hrest).
    assert (v' = v) as -> by congruence.
    destruct (proj2 (Hiff v) (ex_intro _ xs Hrest)) as (out' & body & Hq' & Hbody').
    congruence.
  - split; [| split; [done | by eauto]]. split; [|done]. intros _.
    destruct (proj1 (Hiff v)) as (xs & Hrest); [by exists out, body|].
    by exists v, xs.
Qed.

(** X14: the console tells how the run ended. When the mail is attempted,
    the output ends with what [send_email] reports followed by the closing
    lines of [main]. When an exception ends the run, no closing line is
    printed and the last line is the announcement of the step that raised:
    the fetch (it raises, or what it returns has no length), the filter, or
    the report; and each of these failures ends the run so. *)
Theorem run_transcript_end (w : Wire.world) :
  (email_attempts (fst (Wire.main w)) <> [] ->
   exists front,
     printed (fst (Wire.main w)) =
       front ++
       match Wire.smtp w with
       | Delivered =>
           [ "✓ Email sent successfully to " +:+ env_str (Wire.EMAIL_ADDRESS w);
             str_repeat "-" 70;
             "✓ Email sent successfully to " +:+ env_str (Wire.EMAIL_ADDRESS w);
             "✓ IPO monitoring completed successfully!";
             str_repeat "=" 70 ]
       | AuthenticationFailed =>
           [ "✗ Email authentication failed. Check your email address and password.";
             "  For Gmail, make sure you're using an App Password, not your regular password.";
             str_repeat "-" 70;
             "✗ IPO monitoring completed with errors.";
             str_repeat "=" 70 ]
       | SendFailed msg =>
           [ "✗ Error sending email: " +:+ msg;
             str_repeat "-" 70;
             "✗ IPO monitoring completed with errors.";
             str_repeat "=" 70 ]
       end) /\
  (forall e,
     snd (Wire.main w) = Raise e ->
     (last (printed (fst (Wire.main w))) =
        Some "Fetching today's IPO data from Finnhub..." /\
      (snd (Wire.get_todays_ipos w) = Raise e \/
       exists v, snd (Wire.get_todays_ipos w) = Ok v /\ py_len v = Raise e)) \/
     (last (printed (fst (Wire.main w))) =
        Some "Filtering for high-value listings..." /\
      exists v n, snd (Wire.get_todays_ipos w) = Ok v /\ py_len v = Ok n /\
                  Wire.filter_large_ipos v = Raise e) \/
     (last (printed (fst (Wire.main w))) =
        Some (nl +:+ "Preparing email notification...") /\
      exists v out, snd (Wire.get_todays_ipos w) = Ok v /\
                    Wire.filter_large_ipos v = Ok out /\
                    format_email_body (Wire.now_body w) out = Raise e)) /\
  (forall e,
     snd (Wire.get_todays_ipos w) = Raise e \/
     (exists v, snd (Wire.get_todays_ipos w) = Ok v /\ py_len v = Raise e) ->
     snd (Wire.main w) = Raise e /\
     last (printed (fst (Wire.main w))) =
       Some "Fetching today's IPO data from Finnhub...") /\
  (forall e v n,
     snd (Wire.get_todays_ipos w) = Ok v -> py_len v = Ok n ->
     Wire.filter_large_ipos v = Raise e ->
     snd (Wire.main w) = Raise e /\
     last (printed (fst (Wire.main w))) =
       Some "Filtering for high-value listings...") /\
  (forall e v out,
     snd (Wire.get_todays_ipos w) = Ok v -> Wire.filter_large_ipos v = Ok out ->
     format_email_body (Wire.now_body w) out = Raise e ->
     snd (Wire.main w) = Raise e /\
     last (printed (fst (Wire.main w))) =
       Some (nl +:+ "Preparing email notification...")).
Proof.
  split; [| split; [| split; [| split]]].
  - intros Hmail.
    destruct (wire_main_cases w)
      as [(e & _ & _ & Ht & _) |
          [(e & v & n & _ & _ & _ & _ & Ht & _) |
           [(e & v & out & _ & _ & _ & _ & Ht & _) |
            (v & out & body & _ & _ & _ & _ & _ & front & Hp)]]];
      try congruence.
    exists front. rewrite Hp. unfold final_lines. by destruct (Wire.smtp w).
  - intros e Hrun.
    destruct (wire_main_cases w)
      as [(e' & Hwhy & Hr & _ & Hl) |
          [(e' & v & n & Hget & Hlen & Hq & Hr & _ & Hl) |
           [(e' & v & out & Hget & Hq & Hbody & Hr & _ & Hl) |
            (v & out & body & _ & _ & _ & Hr & _)]]];
      try congruence; assert (e' = e) as -> by congruence.
    + by left.
    + right. left. split; [done|]. by exists v, n.
    + right. right. split; [done|]. by exists v, out.
  - intros e Hwhy. by destruct (wire_main_fetch_raises w e Hwhy) as (Hr & _ & Hl).
  - intros e v n Hget Hlen Hq.
    by destruct (wire_main_filter_raises w v e Hget Hq (ex_intro _ n Hlen))
      as (Hr & _ & Hl).
  - intros e v out Hget Hq Hbody.
    by destruct (wire_main_render_raises w v out e Hget Hq Hbody) as (Hr & _ & Hl).
Qed.

End WireRun.


(** On a body of the documented shape the fetch hands over the events of
    the typed world, after the same trace. *)
Lemma documented_fetch (w : Wire.world) (n : world) :
  documented w n ->
  Wire.get_todays_ipos w =
    (fst (get_todays_ipos n), Ok (events_value (fetched n))) /\
  snd (get_todays_ipos n) = Ok (fetched n).
Proof.
  intros (Hkey & _ & _ & Hnow & _ & _ & _ & Hhttp).
  split; [|apply get_todays_ipos_run].
  unfold Wire.get_todays_ipos, get_todays_ipos, fetched, Wire.raise_for_status,
    raise_for_status, error_status, perform, print, lift.
  rewrite Hkey, Hnow.
  destruct (Wire.http w) as [e | r], (http n) as [e' | r']; try done.
  { by subst. }
  destruct Hhttp as (-> & -> & -> & d & -> & Hd).
  destruct (400 <=? status_code r') eqn:E400;
    destruct (status_code r' <? 500) eqn:E500;
    destruct (500 <=? status_code r') eqn:E5;
    destruct (status_code r' <? 600) eqn:E600;
    cbn [andb]; try done; try lia;
    unfold py_get, dict_get; rewrite Hd; by destruct (ipoCalendar r').
Qed.

Lemma documented_send_email (w : Wire.world) (n : world) (subject body : string) :
  documented w n ->
  Wire.send_email w subject body = send_email n subject body.
Proof.
  intros (_ & Hmail & _ & _ & _ & _ & Hsmtp & _).
  unfold Wire.send_email, send_email. by rewrite Hmail, Hsmtp.
Qed.

Lemma io_bind_pair_ok {A B : Type} (t : list effect) (a : A) (k : A -> io B) :
  (t, Ok a) ≫= k = (let '(t', r) := k a in (t ++ t', r)).
Proof. reflexivity. Qed.

Lemma io_bind_lift_ok {A B : Type} (a : A) (k : A -> io B) :
  lift (Ok a) ≫= k = k a.
Proof. unfold lift, mbind, io_bind. by destruct (k a). Qed.

Section Refinement.
Context {RT : PyRuntime}.

(** X17: on a response whose body has the documented shape, the run on any
    response is the run of the typed world: the fetch hands over the same
    events after the same trace, the filter gives the same result, and
    [main] leaves the same trace and returns or raises the same. *)
Theorem documented_run (w : Wire.world) (n : world) :
  documented w n ->
  Wire.get_todays_ipos w =
    (fst (get_todays_ipos n), Ok (events_value (fetched n))) /\
  Wire.filter_large_ipos (events_value (fetched n)) =
    filter_large_ipos (fetched n) /\
  Wire.main w = main n.
Proof.
  intros Hdoc. destruct (documented_fetch w n Hdoc) as [Hwire Hget].
  assert (Hfilter : Wire.filter_large_ipos (events_value (fetched n)) =
                    filter_large_ipos (fetched n))
    by (by apply wire_filter_iter).
  split; [exact Hwire | split; [exact Hfilter|]].
  assert (Hwget : snd (Wire.get_todays_ipos w) = Ok (events_value (fetched n)))
    by (by rewrite Hwire).
  assert (Hwtrace : fst (Wire.get_todays_ipos w) = fst (get_todays_ipos n))
    by (by rewrite Hwire).
  pose proof Hdoc as (_ & Hmail & Hbanner & _ & Hsubject & Hbody & Hsmtp & _).
  unfold Wire.main, main, Wire.send_email, send_email.
  rewrite Hmail, Hbanner, Hsubject, Hbody, Hsmtp, Hwire.
  destruct (get_todays_ipos n) as [t r]. cbn [snd] in Hget. subst r. cbn [fst].
  rewrite !io_bind_pair_ok. cbn beta.
  change (py_len (events_value (fetched n)))
    with (Ok (A:=nat) (length (PDict <$> fetched n))).
  rewrite io_bind_lift_ok, Hfilter, length_fmap. reflexivity.
Qed.

End Refinement.

(** ** The further properties at concrete runs *)

Lemma wire_world_with_fetch (data : pyval) (outcome : smtp_outcome) :
  Wire.get_todays_ipos (Wire.world_with (calendar_body data) outcome) =
    ([Wire.request_of (Wire.world_with (calendar_body data) outcome)], Ok data).
Proof.
  unfold Wire.get_todays_ipos, Wire.request_of, Wire.world_with, calendar_body,
    perform, lift, py_get, dict_get.
  cbn [Wire.http Wire.raise_for_status Wire.status_code Wire.json Wire.now_fetch
       Wire.FINNHUB_API_KEY].
  by rewrite lookup_singleton_eq.
Qed.

Lemma on_the_wire_documented (n : world) : documented (on_the_wire n) n.
Proof.
  unfold documented, on_the_wire. cbn. repeat (split; [reflexivity|]).
  destruct (http n) as [e | r]; [done|]. cbn. repeat (split; [reflexivity|]).
  eexists. split; [reflexivity|].
  destruct (ipoCalendar r); [apply lookup_singleton_eq | apply lookup_empty].
Qed.

(** X13 at a run that receives the mock data, and at one whose calendar is
    JSON [null]. *)
Lemma run_attempts_mail_iff_witness :
  email_attempts
    (fst (Wire.main (RT:=sample_runtime)
            (Wire.world_with (calendar_body (events_value MOCK_IPO_DATA)) Delivered)))
    <> [] /\
  email_attempts
    (fst (Wire.main (RT:=sample_runtime)
            (Wire.world_with (calendar_body PNone) Delivered))) = [] /\
  exit_status
    (Wire.main (RT:=sample_runtime)
       (Wire.world_with (calendar_body PNone) Delivered)) = 1.
Proof.
  split.
  - apply (proj2 (proj1 (run_attempts_mail_iff (RT:=sample_runtime)
                           (Wire.world_with
                              (calendar_body (events_value MOCK_IPO_DATA))
                              Delivered)))).
    exists (events_value MOCK_IPO_DATA), MOCK_IPO_DATA.
    split; [by rewrite wire_world_with_fetch|].
    split; [by left|]. split; [exact mock_decidable | exact mock_presentable].
  - assert (Hnone : email_attempts
                      (fst (Wire.main (RT:=sample_runtime)
                              (Wire.world_with (calendar_body PNone) Delivered)))
                    = []).
    { apply (wire_main_fetch_raises (RT:=sample_runtime) _ TypeError).
      right. exists PNone. by rewrite wire_world_with_fetch. }
    split; [exact Hnone|].
    destruct (proj1 (proj2 (run_attempts_mail_iff (RT:=sample_runtime)
                              (Wire.world_with (calendar_body PNone) Delivered)))
                Hnone) as (e & _ & Hexit).
    exact Hexit.
Defined.

Lemma wire_unordered_filter_run :
  Wire.filter_large_ipos (events_value unordered_events) = Raise TypeError.
Proof. by rewrite (wire_filter_iter _ unordered_events), unordered_filter_run. Qed.

Lemma wire_missing_shares_filter_run :
  Wire.filter_large_ipos (events_value [missing_shares_event]) =
    Ok [normalized missing_shares_event].
Proof.
  by rewrite (wire_filter_iter _ [missing_shares_event]), missing_shares_filter_run.
Qed.

(** X14 at four runs: an empty calendar whose mail session is refused, a
    calendar that is JSON [null], a calendar with a monetary value that is a
    string, and a calendar with a qualifying event without a share count. *)
Lemma run_transcript_end_witness :
  (exists front,
     printed (fst (Wire.main (RT:=sample_runtime)
                     (Wire.world_with (calendar_body (events_value []))
                        (SendFailed "Connection refused")))) =
       front ++
       [ "✗ Error sending email: Connection refused";
         str_repeat "-" 70;
         "✗ IPO monitoring completed with errors.";
         str_repeat "=" 70 ]) /\
  (snd (Wire.main (RT:=sample_runtime)
          (Wire.world_with (calendar_body PNone) Delivered)) = Raise TypeError /\
   last (printed (fst (Wire.main (RT:=sample_runtime)
                         (Wire.world_with (calendar_body PNone) Delivered)))) =
     Some "Fetching today's IPO data from Finnhub...") /\
  (snd (Wire.main (RT:=sample_runtime)
          (Wire.world_with (calendar_body (events_value unordered_events))
             Delivered)) = Raise TypeError /\
   last (printed (fst (Wire.main (RT:=sample_runtime)
                         (Wire.world_with
                            (calendar_body (events_value unordered_events))
                            Delivered)))) =
     Some "Filtering for high-value listings...") /\
  (snd (Wire.main (RT:=sample_runtime)
          (Wire.world_with (calendar_body (events_value [missing_shares_event]))
             Delivered)) = Raise ValueError /\
   last (printed (fst (Wire.main (RT:=sample_runtime)
                         (Wire.world_with
                            (calendar_body (events_value [missing_shares_event]))
                            Delivered)))) =
     Some (nl +:+ "Preparing email notification...")).
Proof.
  split; [| split; [| split]].
  - apply (proj1 (run_transcript_end (RT:=sample_runtime)
                    (Wire.world_with (calendar_body (events_value []))
                       (SendFailed "Connection refused")))).
    destruct (wire_main_sends (RT:=sample_runtime)
                (Wire.world_with (calendar_body (events_value []))
                   (SendFailed "Connection refused"))
                (events_value []) [] _
                (f_equal snd (wire_world_with_fetch _ _)) eq_refl eq_refl)
      as (_ & Ht & _).
    rewrite Ht. discriminate.
  - apply (proj1 (proj2 (proj2 (run_transcript_end (RT:=sample_runtime)
                                  (Wire.world_with (calendar_body PNone)
                                     Delivered))))).
    right. exists PNone. split; [|reflexivity].
    exact (f_equal snd (wire_world_with_fetch _ _)).
  - apply (proj1 (proj2 (proj2 (proj2 (run_transcript_end (RT:=sample_runtime)
                                         (Wire.world_with
                                            (calendar_body
                                               (events_value unordered_events))
                                            Delivered)))))
             TypeError (events_value unordered_events) 2%nat).
    + exact (f_equal snd (wire_world_with_fetch _ _)).
    + reflexivity.
    + exact wire_unordered_filter_run.
  - apply (proj2 (proj2 (proj2 (proj2 (run_transcript_end (RT:=sample_runtime)
                                         (Wire.world_with
                                            (calendar_body
                                               (events_value [missing_shares_event]))
                                            Delivered)))))
             ValueError (events_value [missing_shares_event])
             [normalized missing_shares_event]).
    + exact (f_equal snd (wire_world_with_fetch _ _)).
    + exact wire_missing_shares_filter_run.
    + apply shares_sentinel_raises. reflexivity.
Defined.


(** X17 at the run that fetches the mock data. *)
Lemma documented_run_witness :
  documented (on_the_wire (world_with MOCK_IPO_DATA Delivered))
    (world_with MOCK_IPO_DATA Delivered) /\
  Wire.main (RT:=sample_runtime) (on_the_wire (world_with MOCK_IPO_DATA Delivered)) =
    main (RT:=sample_runtime) (world_with MOCK_IPO_DATA Delivered).
Proof.
  split; [apply on_the_wire_documented|].
  exact (proj2 (proj2 (documented_run (RT:=sample_runtime) _ _
                         (on_the_wire_documented
                            (world_with MOCK_IPO_DATA Delivered))))).
Defined.
